(** * StandardPatcher: the updater-script rewriter of libmbp

    A shallow embedding of [libmbp/autopatchers/standardpatcher.cpp] and the
    properties its specification states about it.  A [std::string] is a
    [string] (a sequence of bytes), the [std::vector<std::string>] of script
    lines is a [list string] addressed by position, and the iterator loops of
    the three statement rewriters are kept as loops over a position with the
    [erase]/[insert] pair they perform. *)

From stdpp Require Import base list strings.
From Stdlib Require Import Ascii.

(** ** Characters and C string literals *)

(** The double quote character, escaped inside the C++ literals. *)
Definition DQ : ascii := "034"%char.

(** The line feed, the only separator [patchFiles] splits and joins on. *)
Definition LF : ascii := "010"%char.

(** [cstr] spells a C++ string literal: every apostrophe of its argument
    stands for an escaped double quote of the literal.  None of the literals
    of the source holds an apostrophe of its own. *)
Fixpoint cstr (s : string) : string :=
  match s with
  | EmptyString => EmptyString
  | String a s' => String (if decide (a = "'"%char) then DQ else a) (cstr s')
  end.

(** ** [std::string] operations *)

Definition empty (s : string) : bool := bool_decide (s = "").

Fixpoint starts_with (needle s : string) : bool :=
  match needle, s with
  | EmptyString, _ => true
  | String _ _, EmptyString => false
  | String a needle', String b s' =>
      if decide (a = b) then starts_with needle' s' else false
  end.

(** [std::string::npos] and [std::string::find]: the position of the first
    occurrence of [needle], [npos] when there is none. *)
Definition npos : option nat := None.

Fixpoint find (s needle : string) : option nat :=
  if starts_with needle s then Some 0
  else match s with
       | EmptyString => npos
       | String _ s' => S <$> find s' needle
       end.

(** ** Boost string algorithms and [boost::format] *)

(** [boost::is_any_of(chars)]. *)
Fixpoint is_any_of (chars : string) (c : ascii) : bool :=
  match chars with
  | EmptyString => false
  | String a chars' => if decide (a = c) then true else is_any_of chars' c
  end.

(** [boost::split(result, input, pred)] with the default
    [token_compress_off]: every separator ends a token, empty tokens are kept
    and an input without separator is one token. *)
Fixpoint split (pred : ascii → bool) (input : string) : list string :=
  match input with
  | EmptyString => [EmptyString]
  | String c input' =>
      if pred c then EmptyString :: split pred input'
      else match split pred input' with
           | tok :: toks => String c tok :: toks
           | [] => [String c EmptyString]
           end
  end.

(** [boost::join(input, separator)]. *)
Fixpoint join (input : list string) (separator : string) : string :=
  match input with
  | [] => EmptyString
  | [tok] => tok
  | tok :: input' => tok +:+ separator +:+ join input' separator
  end.

(** [(boost::format(tmpl) % arg).str()] for the one directive the templates
    use: each [%1%] is replaced by the argument. *)
Fixpoint boost_format (tmpl arg : string) : string :=
  match tmpl with
  | EmptyString => EmptyString
  | String "%" (String "1" (String "%" tmpl')) => arg +:+ boost_format tmpl' arg
  | String c tmpl' => String c (boost_format tmpl' arg)
  end.

(** ** Regular expressions

    [private/regex.h] only names the engine ([MBP_regex], [MBP_regex_search],
    [MBP_regex_replace]); the patterns themselves are in the source.  They
    use anchors, single-character classes, concatenation, alternation, the
    greedy star and capturing groups, which is the syntax below.  A subject
    is one script line: [^] holds at its first position and [$] at its end,
    [.] matches any character and [\s] the six C-locale white-space
    characters. *)

Inductive cclass : Type :=
  | CAny                      (* .        *)
  | CSpace                    (* \s       *)
  | CChar (c : ascii)         (* a literal character *)
  | CNoneOf (cs : string).    (* [^...]   *)

Definition cmatch (p : cclass) (a : ascii) : bool :=
  match p with
  | CAny => true
  | CSpace => Ascii.is_space a
  | CChar c => bool_decide (c = a)
  | CNoneOf cs => negb (is_any_of cs a)
  end.

Inductive regex : Type :=
  | Eps
  | Cls (p : cclass)
  | Bol                       (* ^ *)
  | Eol                       (* $ *)
  | Seq (r1 r2 : regex)
  | Alt (r1 r2 : regex)
  | Star (r : regex)
  | Grp (i : nat) (r : regex).

Declare Scope regex_scope.
Delimit Scope regex_scope with re.
Bind Scope regex_scope with regex.
Infix "⋅" := Seq (at level 41, right associativity) : regex_scope.

(** A run of literal characters. *)
Fixpoint lit (w : string) : regex :=
  match w with
  | EmptyString => Eps
  | String a w' => Seq (Cls (CChar a)) (lit w')
  end.

Definition any : regex := Cls CAny.
Definition sp : regex := Cls CSpace.
Definition none_of (cs : string) : regex := Cls (CNoneOf cs).

(** The state of a match in progress: the text captured by each group so far
    (latest first) and the part of the subject still to be read. *)
Definition captures : Type := list (nat * string).
Definition mstate : Type := captures * string.

Fixpoint capture (caps : captures) (i : nat) : string :=
  match caps with
  | [] => EmptyString
  | (j, text) :: caps' => if decide (i = j) then text else capture caps' i
  end.

(** The first [k] characters of a string. *)
Fixpoint str_take (k : nat) (s : string) : string :=
  match k, s with
  | S k', String a s' => String a (str_take k' s')
  | _, _ => EmptyString
  end.

(** What lies between two positions of the subject, each given by the text
    that follows it. *)
Definition consumed (from to : string) : string :=
  str_take (String.length from - String.length to) from.

Definition step_cls (p : cclass) (st : mstate) : list mstate :=
  match st.2 with
  | String a s' => if cmatch p a then [(st.1, s')] else []
  | EmptyString => []
  end.

(** The greedy star of a backtracking matcher: one more iteration is tried
    before stopping, and an iteration that reads nothing is not repeated. *)
Fixpoint star_run (f : mstate → list mstate) (fuel : nat) (st : mstate)
  : list mstate :=
  match fuel with
  | 0 => [st]
  | S fuel' =>
      (filter (λ st', String.length st'.2 < String.length st.2) (f st)
         ≫= star_run f fuel') ++ [st]
  end.

(** [run n r st] lists, in the order a backtracking matcher tries them, the
    states in which [r] can have matched from [st]; [n] is the length of the
    whole subject, so that the first position is the one with [n] characters
    still to be read. *)
Fixpoint run (n : nat) (r : regex) (st : mstate) : list mstate :=
  match r with
  | Eps => [st]
  | Cls p => step_cls p st
  | Bol => if decide (String.length st.2 = n) then [st] else []
  | Eol => if decide (st.2 = "") then [st] else []
  | Seq r1 r2 => run n r1 st ≫= run n r2
  | Alt r1 r2 => run n r1 st ++ run n r2 st
  | Star r' => star_run (run n r') (String.length st.2) st
  | Grp i r' =>
      (λ st', ((i, consumed st.2 st'.2) :: st'.1, st'.2)) <$> run n r' st
  end.

(** The leftmost match at or after the start of [s]: the text skipped before
    it and the state the matcher stops in. *)
Fixpoint search_from (n : nat) (r : regex) (s : string)
  : option (string * mstate) :=
  match run n r ([], s) with
  | st :: _ => Some (EmptyString, st)
  | [] =>
      match s with
      | EmptyString => None
      | String a s' =>
          (λ m : string * mstate, (String a m.1, m.2)) <$> search_from n r s'
      end
  end.

(** Modelled from the spec: [MBP_regex_search] of the absent
    [private/regex.h]; a line qualifies when the pattern matches somewhere in
    it. *)
Definition MBP_regex_search (line : string) (re : regex) : bool :=
  bool_decide (is_Some (search_from (String.length line) re line)).

(** The replacement text: [\d] stands for the text of group [d], any other
    character for itself. *)
Fixpoint expand (fmt : string) (caps : captures) : string :=
  match fmt with
  | EmptyString => EmptyString
  | String "\" (String d fmt') =>
      match Ascii.is_nat d with
      | Some i => capture caps i +:+ expand fmt' caps
      | None => String d (expand fmt' caps)
      end
  | String c fmt' => String c (expand fmt' caps)
  end.

(** Every match from left to right gives way to the replacement text; after
    a match that read nothing the next character is copied, so that each
    round moves on and one unit of fuel per character is enough. *)
Fixpoint replace_from (fuel n : nat) (re : regex) (fmt s : string) : string :=
  match fuel with
  | 0 => s
  | S fuel' =>
      match search_from n re s with
      | None => s
      | Some (skipped, (caps, rest)) =>
          skipped +:+ expand fmt caps +:+
            (if decide (String.length skipped + String.length rest
                        = String.length s)
             then match rest with
                  | EmptyString => EmptyString
                  | String a rest' =>
                      String a (replace_from fuel' n re fmt rest')
                  end
             else replace_from fuel' n re fmt rest)
      end
  end.

(** Modelled from the spec: [MBP_regex_replace] of the absent
    [private/regex.h], which carries the name of [regex_replace] of the
    standard and Boost libraries.  Like these it returns its result: the
    subject with every match of the pattern giving way to the expanded
    replacement text.  The subject it is given is not modified. *)
Definition MBP_regex_replace (line : string) (re : regex) (fmt : string)
  : string :=
  replace_from (S (String.length line)) (String.length line) re fmt line.

(** ** The constants of the file *)

Definition Id : string := "StandardPatcher".

Definition UpdaterScript : string :=
  "META-INF/com/google/android/updater-script".

Definition Mount : string :=
  cstr "run_program('/update-binary-tool', 'mount', '%1%'};".
Definition Unmount : string :=
  cstr "run_program('/update-binary-tool', 'unmount', '%1%'};".
Definition Format : string :=
  cstr "run_program('/update-binary-tool', 'format', '%1%'};".

Definition System : string := "system".
Definition Cache : string := "cache".
Definition Data : string := "data".

(** ** The patterns, one definition per [MBP_regex] of the source *)

(** [^\s*assert\s*\(.*getprop\s*\(.*(ro.product.device|ro.build.product)] *)
Definition reLine : regex :=
  (Bol ⋅ Star sp ⋅ lit "assert" ⋅ Star sp ⋅ lit "(" ⋅ Star any
   ⋅ lit "getprop" ⋅ Star sp ⋅ lit "(" ⋅ Star any
   ⋅ Grp 1 (Alt (lit "ro" ⋅ any ⋅ lit "product" ⋅ any ⋅ lit "device")
                (lit "ro" ⋅ any ⋅ lit "build" ⋅ any ⋅ lit "product")))%re.

(** [^(\s*assert\s*\()] *)
Definition reAssert : regex :=
  (Bol ⋅ Grp 1 (Star sp ⋅ lit "assert" ⋅ Star sp ⋅ lit "("))%re.

(** [^\s*mount\s*\(.*$] *)
Definition mount_re1 : regex :=
  (Bol ⋅ Star sp ⋅ lit "mount" ⋅ Star sp ⋅ lit "(" ⋅ Star any ⋅ Eol)%re.

(** [^\s*run_program\s*\(\s*'[^']*busybox'\s*,\s*'mount'.*$], each
    apostrophe standing for a double quote. *)
Definition mount_re2 : regex :=
  (Bol ⋅ Star sp ⋅ lit "run_program" ⋅ Star sp ⋅ lit "(" ⋅ Star sp
   ⋅ Cls (CChar DQ) ⋅ Star (none_of (cstr "'")) ⋅ lit (cstr "busybox'")
   ⋅ Star sp ⋅ lit "," ⋅ Star sp ⋅ lit (cstr "'mount'") ⋅ Star any ⋅ Eol)%re.

(** [^\s*run_program\s*\(\s*'[^',]*/mount'.*$] *)
Definition mount_re3 : regex :=
  (Bol ⋅ Star sp ⋅ lit "run_program" ⋅ Star sp ⋅ lit "(" ⋅ Star sp
   ⋅ Cls (CChar DQ) ⋅ Star (none_of (cstr "',")) ⋅ lit (cstr "/mount'")
   ⋅ Star any ⋅ Eol)%re.

(** [^\s*unmount\s*\(.*$] *)
Definition unmount_re1 : regex :=
  (Bol ⋅ Star sp ⋅ lit "unmount" ⋅ Star sp ⋅ lit "(" ⋅ Star any ⋅ Eol)%re.

(** [^\s*run_program\s*\(\s*'[^']*busybox'\s*,\s*'umount'.*$] *)
Definition unmount_re2 : regex :=
  (Bol ⋅ Star sp ⋅ lit "run_program" ⋅ Star sp ⋅ lit "(" ⋅ Star sp
   ⋅ Cls (CChar DQ) ⋅ Star (none_of (cstr "'")) ⋅ lit (cstr "busybox'")
   ⋅ Star sp ⋅ lit "," ⋅ Star sp ⋅ lit (cstr "'umount'") ⋅ Star any ⋅ Eol)%re.

(** [^\s*format\s*\(.*$] *)
Definition format_re : regex :=
  (Bol ⋅ Star sp ⋅ lit "format" ⋅ Star sp ⋅ lit "(" ⋅ Star any ⋅ Eol)%re.

(** [delete_recursive\s*\([^\)]*'/system'] *)
Definition delete_system_re : regex :=
  (lit "delete_recursive" ⋅ Star sp ⋅ lit "(" ⋅ Star (none_of ")")
   ⋅ lit (cstr "'/system'"))%re.

(** [delete_recursive\s*\([^\)]*'/cache'] *)
Definition delete_cache_re : regex :=
  (lit "delete_recursive" ⋅ Star sp ⋅ lit "(" ⋅ Star (none_of ")")
   ⋅ lit (cstr "'/cache'"))%re.

(** [^\s*run_program\s*\(\s*'[^',]*/format.sh'.*$] *)
Definition format_sh_re : regex :=
  (Bol ⋅ Star sp ⋅ lit "run_program" ⋅ Star sp ⋅ lit "(" ⋅ Star sp
   ⋅ Cls (CChar DQ) ⋅ Star (none_of (cstr "',")) ⋅ lit "/format" ⋅ any
   ⋅ lit (cstr "sh'") ⋅ Star any ⋅ Eol)%re.

(** The replacement text of [removeDeviceChecks]:
    [\1'true' == 'true' || ]. *)
Definition assert_fmt : string := cstr "\1'true' == 'true' || ".

(** ** The collaborators the patcher is handed *)

(** [Device::partition(name)]: the device path of a logical partition, empty
    when the device has none. *)
Record Device : Type := { partition : string → string }.

Record PatchInfo : Type := {
  keyFromFilename : string → string;
  deviceCheck : string → bool
}.

Record FileInfo : Type := {
  device : Device;
  patchInfo : PatchInfo;
  filename : string
}.

(** The configuration is only stored, never read, by this file. *)
Inductive PatcherConfig : Type := PatcherConfig_handle (config : nat).

(** Modelled from the spec: the [PatcherError] class is declared outside this
    file; a default-constructed value is the no-error state, any other value
    carries an error code. *)
Inductive PatcherError : Type :=
  | PatcherError_default
  | PatcherError_code (code : nat).

Record Impl : Type := { pc : PatcherConfig; info : FileInfo }.

Record StandardPatcher : Type := { m_impl : Impl }.

(** ** The line vector and its iterators *)

(** [lines->erase(it)] and [lines->insert(it, x)], each with the iterator it
    returns; an iterator is a position. *)
Definition vec_erase (lines : list string) (it : nat) : list string * nat :=
  (delete it lines, it).

Definition vec_insert (lines : list string) (it : nat) (x : string)
  : list string * nat :=
  (take it lines ++ x :: drop it lines, it).

(** [for (it = lines->begin(); it != lines->end(); ++it) body]: the body
    reads the line under [it] and hands back the vector and the iterator it
    leaves.  One unit of fuel is spent per iteration. *)
Fixpoint for_each_line (fuel : nat)
    (body : list string → nat → string → list string * nat)
    (lines : list string) (it : nat) : list string :=
  match fuel with
  | 0 => lines
  | S fuel' =>
      match lines !! it with
      | None => lines
      | Some line =>
          let '(lines', it') := body lines it line in
          for_each_line fuel' body lines' (S it')
      end
  end.

(** The [erase] followed by [insert] of every replacement. *)
Definition replace_at (lines : list string) (it : nat) (x : string)
  : list string * nat :=
  let '(lines, it) := vec_erase lines it in
  vec_insert lines it x.

(** ** The member functions *)

Definition StandardPatcher_new (pc : PatcherConfig) (info : FileInfo)
  : StandardPatcher :=
  {| m_impl := {| pc := pc; info := info |} |}.

Definition error (this : StandardPatcher) : PatcherError :=
  PatcherError_default.

Definition id (this : StandardPatcher) : string := Id.

Definition newFiles (this : StandardPatcher) : list string := [].

Definition existingFiles (this : StandardPatcher) : list string :=
  [] ++ [UpdaterScript].

(** The call of [MBP_regex_replace] is a statement of its own: the value it
    returns is not assigned to the line, nor to anything else. *)
Definition removeDeviceChecks (lines : list string) : list string :=
  for_each_line (length lines)
    (λ lines it line,
       if MBP_regex_search line reLine
       then let _ := MBP_regex_replace line reAssert assert_fmt in (lines, it)
       else (lines, it))
    lines 0.

Definition replaceMountLines (lines : list string) (device : Device)
  : list string :=
  let pSystem := partition device System in
  let pCache := partition device Cache in
  let pData := partition device Data in
  for_each_line (length lines)
    (λ lines it line,
       let isMountLine :=
         MBP_regex_search line mount_re1
         || MBP_regex_search line mount_re2
         || MBP_regex_search line mount_re3 in
       if isMountLine then
         let isSystem :=
           bool_decide (find line System ≠ npos)
           || (negb (empty pSystem) && bool_decide (find line pSystem ≠ npos)) in
         let isCache :=
           bool_decide (find line Cache ≠ npos)
           || (negb (empty pCache) && bool_decide (find line pCache ≠ npos)) in
         let isData :=
           bool_decide (find line Data ≠ npos)
           || bool_decide (find line "userdata" ≠ npos)
           || (negb (empty pData) && bool_decide (find line pData ≠ npos)) in
         if isSystem then replace_at lines it (boost_format Mount "/system")
         else if isCache then replace_at lines it (boost_format Mount "/cache")
         else if isData then replace_at lines it (boost_format Mount "/data")
         else (lines, it)
       else (lines, it))
    lines 0.

Definition replaceUnmountLines (lines : list string) (device : Device)
  : list string :=
  let pSystem := partition device System in
  let pCache := partition device Cache in
  let pData := partition device Data in
  for_each_line (length lines)
    (λ lines it line,
       let isUnmountLine :=
         MBP_regex_search line unmount_re1
         || MBP_regex_search line unmount_re2 in
       if isUnmountLine then
         let isSystem :=
           bool_decide (find line System ≠ npos)
           || (negb (empty pSystem) && bool_decide (find line pSystem ≠ npos)) in
         let isCache :=
           bool_decide (find line Cache ≠ npos)
           || (negb (empty pCache) && bool_decide (find line pCache ≠ npos)) in
         let isData :=
           bool_decide (find line Data ≠ npos)
           || bool_decide (find line "userdata" ≠ npos)
           || (negb (empty pData) && bool_decide (find line pData ≠ npos)) in
         if isSystem then replace_at lines it (boost_format Unmount "/system")
         else if isCache then replace_at lines it (boost_format Unmount "/cache")
         else if isData then replace_at lines it (boost_format Unmount "/data")
         else (lines, it)
       else (lines, it))
    lines 0.

Definition replaceFormatLines (lines : list string) (device : Device)
  : list string :=
  let pSystem := partition device System in
  let pCache := partition device Cache in
  let pData := partition device Data in
  for_each_line (length lines)
    (λ lines it line,
       if MBP_regex_search line format_re then
         let isSystem :=
           bool_decide (find line System ≠ npos)
           || (negb (empty pSystem) && bool_decide (find line pSystem ≠ npos)) in
         let isCache :=
           bool_decide (find line Cache ≠ npos)
           || (negb (empty pCache) && bool_decide (find line pCache ≠ npos)) in
         let isData :=
           bool_decide (find line Data ≠ npos)
           || bool_decide (find line "userdata" ≠ npos)
           || (negb (empty pData) && bool_decide (find line pData ≠ npos)) in
         if isSystem then replace_at lines it (boost_format Format "/system")
         else if isCache then replace_at lines it (boost_format Format "/cache")
         else if isData then replace_at lines it (boost_format Format "/data")
         else (lines, it)
       else if MBP_regex_search line delete_system_re then
         replace_at lines it (boost_format Format "/system")
       else if MBP_regex_search line delete_cache_re then
         replace_at lines it (boost_format Format "/cache")
       else if MBP_regex_search line format_sh_re then
         replace_at lines it (boost_format Format "/data")
       else (lines, it))
    lines 0.

(** The statements of [patchFiles] under its comment [Remove device check
    if requested]. *)
Definition removeDeviceChecks_if_requested (this : StandardPatcher)
    (lines : list string) : list string :=
  let key :=
    keyFromFilename (patchInfo (info (m_impl this)))
      (filename (info (m_impl this))) in
  if negb (deviceCheck (patchInfo (info (m_impl this))) key)
  then removeDeviceChecks lines
  else lines.

(** [patchFiles] between the read and the write of the updater-script: the
    bytes read are [contents], the result is the value returned and the bytes
    handed to the write. *)
Definition patchFiles (this : StandardPatcher) (contents : string)
  : bool * string :=
  let strContents := contents in
  let lines := split (is_any_of (String LF "")) strContents in
  let lines := replaceMountLines lines (device (info (m_impl this))) in
  let lines := replaceUnmountLines lines (device (info (m_impl this))) in
  let lines := replaceFormatLines lines (device (info (m_impl this))) in
  let lines := removeDeviceChecks_if_requested this lines in
  let strContents := join lines (String LF "") in
  (true, strContents).

(** ** The rewriters line by line

    Each statement rewriter visits every position once and either leaves the
    line there or puts one line in its place, so it is the map of a function
    on lines.  These functions are what the properties below are stated
    with; the section on the loops proves that the passes compute them. *)

Definition isSystem (device : Device) (line : string) : bool :=
  bool_decide (find line System ≠ npos)
  || (negb (empty (partition device System))
      && bool_decide (find line (partition device System) ≠ npos)).

Definition isCache (device : Device) (line : string) : bool :=
  bool_decide (find line Cache ≠ npos)
  || (negb (empty (partition device Cache))
      && bool_decide (find line (partition device Cache) ≠ npos)).

Definition isData (device : Device) (line : string) : bool :=
  bool_decide (find line Data ≠ npos)
  || bool_decide (find line "userdata" ≠ npos)
  || (negb (empty (partition device Data))
      && bool_decide (find line (partition device Data) ≠ npos)).

(** The path a classified line is rewritten with. *)
Definition classify (device : Device) (line : string) : option string :=
  if isSystem device line then Some "/system"
  else if isCache device line then Some "/cache"
  else if isData device line then Some "/data"
  else None.

Definition isMountLine (line : string) : bool :=
  MBP_regex_search line mount_re1
  || MBP_regex_search line mount_re2
  || MBP_regex_search line mount_re3.

Definition isUnmountLine (line : string) : bool :=
  MBP_regex_search line unmount_re1 || MBP_regex_search line unmount_re2.

Definition mount_line (device : Device) (line : string) : string :=
  if isMountLine line
  then from_option (boost_format Mount) line (classify device line)
  else line.

Definition unmount_line (device : Device) (line : string) : string :=
  if isUnmountLine line
  then from_option (boost_format Unmount) line (classify device line)
  else line.

Definition format_line (device : Device) (line : string) : string :=
  if MBP_regex_search line format_re
  then from_option (boost_format Format) line (classify device line)
  else if MBP_regex_search line delete_system_re
  then boost_format Format "/system"
  else if MBP_regex_search line delete_cache_re
  then boost_format Format "/cache"
  else if MBP_regex_search line format_sh_re
  then boost_format Format "/data"
  else line.

(** What [removeDeviceChecks] computes for a line: for a line [reLine]
    matches, the value of its call of [MBP_regex_replace].  The loop does not
    store this value. *)
Definition assert_line (line : string) : string :=
  if MBP_regex_search line reLine
  then MBP_regex_replace line reAssert assert_fmt
  else line.

(** The three statement rewriters, to state what they share. *)
Inductive rewriter : Type := MountRewriter | UnmountRewriter | FormatRewriter.

Definition run_rewriter (w : rewriter) (lines : list string) (device : Device)
  : list string :=
  match w with
  | MountRewriter => replaceMountLines lines device
  | UnmountRewriter => replaceUnmountLines lines device
  | FormatRewriter => replaceFormatLines lines device
  end.

Definition template (w : rewriter) : string :=
  match w with
  | MountRewriter => Mount
  | UnmountRewriter => Unmount
  | FormatRewriter => Format
  end.

(** The test that sends a line of a rewriter to the partition classifier. *)
Definition classified_line (w : rewriter) (line : string) : bool :=
  match w with
  | MountRewriter => isMountLine line
  | UnmountRewriter => isUnmountLine line
  | FormatRewriter => MBP_regex_search line format_re
  end.

(** Every pattern a rewriter tests a line against. *)
Definition patterns (w : rewriter) : list regex :=
  match w with
  | MountRewriter => [mount_re1; mount_re2; mount_re3]
  | UnmountRewriter => [unmount_re1; unmount_re2]
  | FormatRewriter => [format_re; delete_system_re; delete_cache_re; format_sh_re]
  end.

(** The three statement rewriters in the order [patchFiles] runs them. *)
Definition rewrite_statements (lines : list string) (device : Device)
  : list string :=
  replaceFormatLines
    (replaceUnmountLines (replaceMountLines lines device) device) device.

(** ** Words of the specification *)

(** [needle] occurs in [s]. *)
Definition contains (s needle : string) : Prop :=
  ∃ before after, s = before +:+ needle +:+ after.

(** A line refers to a partition when it holds the name of the partition or
    the path the device maps it to; for Data the name [userdata] counts as
    well. *)
Definition refers_to (device : Device) (name line : string) : Prop :=
  contains line name
  ∨ (partition device name ≠ "" ∧ contains line (partition device name)).

Definition refers_to_data (device : Device) (line : string) : Prop :=
  contains line Data ∨ contains line "userdata"
  ∨ (partition device Data ≠ "" ∧ contains line (partition device Data)).

Fixpoint all_chars (p : ascii → bool) (w : string) : bool :=
  match w with
  | EmptyString => true
  | String a w' => p a && all_chars p w'
  end.

(** Optional white space. *)
Definition blank (w : string) : bool := all_chars Ascii.is_space w.

(** [s] without its leading white space. *)
Fixpoint lstrip (s : string) : string :=
  match s with
  | String a s' => if Ascii.is_space a then lstrip s' else s
  | EmptyString => EmptyString
  end.

Fixpoint str_drop (k : nat) (s : string) : string :=
  match k, s with
  | S k', String _ s' => str_drop k' s'
  | _, _ => s
  end.

(** What follows the opening parenthesis of a line that begins, after
    optional white space, with a call of [fname]. *)
Definition call_args (fname s : string) : option string :=
  let s1 := lstrip s in
  if starts_with fname s1 then
    let s2 := lstrip (str_drop (String.length fname) s1) in
    if starts_with "(" s2 then Some (str_drop 1 s2) else None
  else None.

(** The positions a greedy star of a character class can stop at, the
    farthest first. *)
Fixpoint drops (p : ascii → bool) (s : string) : list string :=
  match s with
  | String a s' => if p a then drops p s' ++ [s] else [s]
  | EmptyString => [s]
  end.

(** The text [removeDeviceChecks] puts after the opening parenthesis. *)
Definition true_disjunct : string := cstr "'true' == 'true' || ".

(** What [reLine] asks of the arguments of the [assert]:
    [.*getprop\s*\(.*(ro.product.device|ro.build.product)]. *)
Definition reLine_args : regex :=
  (Star any ⋅ lit "getprop" ⋅ Star sp ⋅ lit "(" ⋅ Star any
   ⋅ Grp 1 (Alt (lit "ro" ⋅ any ⋅ lit "product" ⋅ any ⋅ lit "device")
                (lit "ro" ⋅ any ⋅ lit "build" ⋅ any ⋅ lit "product")))%re.

(** The two property names the way [reLine] spells them, each dot of the
    pattern standing for any one character. *)
Definition device_property_pattern (name : string) : Prop :=
  ∃ x y, name = "ro" +:+ String x ("product" +:+ String y "device")
       ∨ name = "ro" +:+ String x ("build" +:+ String y "product").

(** The property names themselves. *)
Definition device_property (name : string) : Prop :=
  name = "ro.product.device" ∨ name = "ro.build.product".

(** The text holds a [getprop] lookup, and later one of the names. *)
Definition getprop_lookup (names : string → Prop) (args : string) : Prop :=
  ∃ a ws b name z,
    args = a +:+ "getprop" +:+ ws +:+ "(" +:+ b +:+ name +:+ z
    ∧ blank ws = true ∧ names name.

(** The four passes of [patchFiles]. *)
Inductive pass : Type :=
  | StatementPass (w : rewriter)
  | AssertionPass.

Definition run_pass (p : pass) (lines : list string) (device : Device)
  : list string :=
  match p with
  | StatementPass w => run_rewriter w lines device
  | AssertionPass => removeDeviceChecks lines
  end.

Definition pass_patterns (p : pass) : list regex :=
  match p with
  | StatementPass w => patterns w
  | AssertionPass => [reLine]
  end.

(** A line qualifies for a pass when one of its patterns matches it. *)
Definition qualifies (p : pass) (line : string) : bool :=
  existsb (MBP_regex_search line) (pass_patterns p).

Definition statement_patterns : list regex :=
  patterns MountRewriter ++ patterns UnmountRewriter ++ patterns FormatRewriter.

Definition qualifies_nowhere (line : string) : bool :=
  forallb (λ re, negb (MBP_regex_search line re))
    (statement_patterns ++ pass_patterns AssertionPass).

(** Every line a statement rewriter can put in place of another. *)
Definition emitted_lines : list string :=
  w ← [MountRewriter; UnmountRewriter; FormatRewriter];
  path ← ["/system"; "/cache"; "/data"];
  [boost_format (template w) path].

(** The rules of [replaceFormatLines] that name their partition. *)
Inductive explicit_rule : Type := DeleteSystem | DeleteCache | FormatSh.

Definition rule_pattern (rule : explicit_rule) : regex :=
  match rule with
  | DeleteSystem => delete_system_re
  | DeleteCache => delete_cache_re
  | FormatSh => format_sh_re
  end.

Definition rule_path (rule : explicit_rule) : string :=
  match rule with
  | DeleteSystem => "/system"
  | DeleteCache => "/cache"
  | FormatSh => "/data"
  end.

(** An earlier branch of the chain takes the line and rewrites it with
    another partition. *)
Definition overridden (rule : explicit_rule) (device : Device) (line : string)
  : bool :=
  match rule with
  | DeleteSystem => false
  | DeleteCache =>
      MBP_regex_search line delete_system_re
      || (MBP_regex_search line format_re && isSystem device line)
  | FormatSh =>
      MBP_regex_search line delete_system_re
      || MBP_regex_search line delete_cache_re
  end.

(** No line feed in the text. *)
Definition one_line (s : string) : bool :=
  all_chars (λ a, negb (is_any_of (String LF "") a)) s.

(** What a pass makes of one line. *)
Definition pass_line (p : pass) (device : Device) (line : string) : string :=
  match p with
  | StatementPass MountRewriter => mount_line device line
  | StatementPass UnmountRewriter => unmount_line device line
  | StatementPass FormatRewriter => format_line device line
  | AssertionPass => line
  end.

(** ** Sample inputs *)

(** A device that maps no partition, and one whose System path is a
    directory of the recovery. *)
Definition unmapped_device : Device := {| partition := λ _, "" |}.

Definition sbin_device : Device :=
  {| partition := λ name, if decide (name = System) then "/sbin" else "" |}.

Definition sample_patcher (device : Device) (check : bool) : StandardPatcher :=
  StandardPatcher_new (PatcherConfig_handle 0)
    {| device := device;
       patchInfo := {| keyFromFilename := λ name, name;
                       deviceCheck := λ _, check |};
       filename := "rom.zip" |}.

Definition sample_assert_args : string :=
  cstr "getprop('ro.product.device') == 'jflte');".

Definition sample_assert : string := "assert(" +:+ sample_assert_args.

Definition sample_umount : string :=
  cstr "run_program('/sbin/busybox', 'umount', '/cache');".

Definition sample_delete : string :=
  cstr "delete_recursive('/cache', '/system');".

Definition sample_mount : string :=
  cstr "mount('ext4', '/dev/block/mmcblk0p1', '/system', '/data/system');".

Definition sample_plain : string :=
  "ui_print(" +:+ String DQ ("Installing" +:+ String DQ ");")
  +:+ String LF "show_progress(0.5, 10);".

(** ** Shapes of lines *)

(** The function a rewriter looks for at the start of a line. *)
Definition call_name (w : rewriter) : string :=
  match w with
  | MountRewriter => "mount"
  | UnmountRewriter => "unmount"
  | FormatRewriter => "format"
  end.

(** The line begins, after optional white space, with a call of [fname]. *)
Definition begins_with_call (fname line : string) : Prop :=
  ∃ ws1 ws2 rest,
    blank ws1 = true ∧ blank ws2 = true
    ∧ line = ws1 +:+ fname +:+ ws2 +:+ "(" +:+ rest.

(** None of the characters [cs] occurs in [q]. *)
Definition free_of (cs q : string) : bool :=
  all_chars (λ a, negb (is_any_of cs a)) q.

(** What a rewriter makes of a line it sends to the classifier. *)
Definition classified_result (w : rewriter) (device : Device)
    (line out : string) : Prop :=
  (refers_to device System line → out = boost_format (template w) "/system")
  ∧ (¬ refers_to device System line → refers_to device Cache line →
     out = boost_format (template w) "/cache")
  ∧ (¬ refers_to device System line → ¬ refers_to device Cache line →
     refers_to_data device line → out = boost_format (template w) "/data")
  ∧ (¬ refers_to device System line → ¬ refers_to device Cache line →
     ¬ refers_to_data device line → out = line).

(** The second argument of the [busybox] call a rewriter looks for. *)
Definition busybox_verb (w : rewriter) : option string :=
  match w with
  | MountRewriter => Some "mount"
  | UnmountRewriter => Some "umount"
  | FormatRewriter => None
  end.

(** A string that opens with a double quote: what is quoted and what follows
    the closing quote. *)
Fixpoint until_quote (s : string) : option (string * string) :=
  match s with
  | EmptyString => None
  | String a s' =>
      if decide (a = DQ) then Some (EmptyString, s')
      else (λ p : string * string, (String a p.1, p.2)) <$> until_quote s'
  end.

Definition quoted (s : string) : option (string * string) :=
  match s with
  | String a s' => if decide (a = DQ) then until_quote s' else None
  | EmptyString => None
  end.

Definition sample_busybox_mount : string :=
  cstr "run_program('/sbin/busybox', 'mount', '/system');".

Definition sample_tool_mount : string :=
  cstr "run_program('/sbin/mount', '/data');".

Definition sample_format_sh : string :=
  cstr "run_program('/tmp/format.sh');".

Definition sample_delete_system : string :=
  cstr "ui_print('wipe'); delete_recursive('/system'); # done".

Definition sample_wildcard_assert : string :=
  cstr "assert(getprop('ro_product_device') == 'jflte');".

(** The line calls [run_program] with a first argument, in quotes, that ends
    in [busybox] and a second argument that is [verb] in quotes. *)
Definition busybox_call (verb line : string) : Prop :=
  ∃ ws1 ws2 ws3 q ws4 ws5 rest,
    blank ws1 = true ∧ blank ws2 = true ∧ blank ws3 = true
    ∧ blank ws4 = true ∧ blank ws5 = true
    ∧ free_of (String DQ "") q = true
    ∧ line = ws1 +:+ "run_program" +:+ ws2 +:+ "(" +:+ ws3
             +:+ String DQ (q +:+ "busybox"
             +:+ String DQ (ws4 +:+ "," +:+ ws5
             +:+ String DQ (verb +:+ String DQ rest))).

(** The line calls [run_program] with a first argument, in quotes and without
    comma, whose last path segment is [tool]. *)
Definition tool_call (tool line : string) : Prop :=
  ∃ ws1 ws2 ws3 q rest,
    blank ws1 = true ∧ blank ws2 = true ∧ blank ws3 = true
    ∧ free_of (String DQ ",") q = true
    ∧ line = ws1 +:+ "run_program" +:+ ws2 +:+ "(" +:+ ws3
             +:+ String DQ (q +:+ "/" +:+ tool +:+ String DQ rest).

(** The tool is [format.sh], the dot being any one character. *)
Definition format_sh_call (line : string) : Prop :=
  ∃ dot, tool_call ("format" +:+ String dot "sh") line.

(** Somewhere in the line [delete_recursive] is called, and [path] in quotes
    follows before any closing parenthesis. *)
Definition delete_call (path line : string) : Prop :=
  ∃ before ws b after,
    blank ws = true ∧ free_of ")" b = true
    ∧ line = before +:+ "delete_recursive" +:+ ws +:+ "(" +:+ b
             +:+ String DQ (path +:+ String DQ after).

(** The shapes of line each rewriter recognises. *)
Definition recognised (w : rewriter) (line : string) : Prop :=
  match w with
  | MountRewriter =>
      begins_with_call "mount" line ∨ busybox_call "mount" line
      ∨ tool_call "mount" line
  | UnmountRewriter =>
      begins_with_call "unmount" line ∨ busybox_call "umount" line
  | FormatRewriter =>
      begins_with_call "format" line ∨ delete_call "/system" line
      ∨ delete_call "/cache" line ∨ format_sh_call line
  end.

Fixpoint last_char (s : string) : option ascii :=
  match s with
  | EmptyString => None
  | String a EmptyString => Some a
  | String _ s' => last_char s'
  end.

(** The first argument of a [run_program] line, when it is quoted, and what
    follows its closing quote. *)
Definition first_arg (line : string) : option (string * string) :=
  call_args "run_program" line ≫= λ args, quoted (lstrip args).

Definition sample_tool_umount : string :=
  cstr "run_program('/sbin/umount', '/system');".

(** The branch of the chain of [replaceFormatLines] that takes a line: a
    rule is reached when the line does not begin with [format(] and no
    earlier rule matches it.  The other rewriters have no such rules. *)
Definition taken_by (w : rewriter) (rule : explicit_rule) (line : string)
  : bool :=
  match w with
  | FormatRewriter =>
      negb (MBP_regex_search line format_re)
      && match rule with
         | DeleteSystem => MBP_regex_search line delete_system_re
         | DeleteCache =>
             negb (MBP_regex_search line delete_system_re)
             && MBP_regex_search line delete_cache_re
         | FormatSh =>
             negb (MBP_regex_search line delete_system_re)
             && negb (MBP_regex_search line delete_cache_re)
             && MBP_regex_search line format_sh_re
         end
  | _ => false
  end.

Definition sample_format_sh_system : string :=
  cstr "run_program('/system/bin/format.sh', '/data');".

Definition sample_delete_cache_data : string :=
  cstr "delete_recursive('/cache', '/data/system');".

Definition sample_mount_boot : string :=
  cstr "mount('ext4', '/dev/block/mmcblk0p1', '/boot');".

(** * Properties *)

(** ** Strings *)

Section strings.
Implicit Types s t u w : string.
Implicit Types a b : ascii.

Lemma app_nil_l_s s : "" +:+ s = s.
Proof. reflexivity. Qed.

Lemma app_cons_s a s t : String a s +:+ t = String a (s +:+ t).
Proof. reflexivity. Qed.

Lemma app_nil_r_s s : s +:+ "" = s.
Proof. induction s as [|a s IH]; [done|]. by rewrite app_cons_s, IH. Qed.

Lemma app_assoc_s s t u : (s +:+ t) +:+ u = s +:+ t +:+ u.
Proof.
  induction s as [|a s IH]; [done|]. by rewrite !app_cons_s, IH.
Qed.

Lemma length_app_s s t :
  String.length (s +:+ t) = String.length s + String.length t.
Proof.
  induction s as [|a s IH]; [done|]. rewrite app_cons_s. simpl. by rewrite IH.
Qed.

Lemma app_inv_head_s w s t : w +:+ s = w +:+ t → s = t.
Proof.
  induction w as [|a w IH]; [done|]. rewrite !app_cons_s. intros [= H]. auto.
Qed.

Lemma starts_with_app w t : starts_with w (w +:+ t) = true.
Proof.
  induction w as [|a w IH]; [done|]. rewrite app_cons_s. simpl.
  by rewrite decide_True.
Qed.

Lemma str_drop_app w t : str_drop (String.length w) (w +:+ t) = t.
Proof. induction w as [|a w IH]; [by destruct t|]. by rewrite app_cons_s. Qed.

Lemma starts_with_drop w s :
  starts_with w s = true → s = w +:+ str_drop (String.length w) s.
Proof.
  revert s. induction w as [|a w IH]; intros [|b s]; simpl; try done.
  case_decide; [|done]. subst b. intros H. rewrite app_cons_s. f_equal. auto.
Qed.

Lemma starts_with_iff w s : starts_with w s = true ↔ ∃ t, s = w +:+ t.
Proof.
  split.
  - intros H. eexists. by apply starts_with_drop.
  - intros [t ->]. apply starts_with_app.
Qed.

Lemma str_take_app w t : str_take (String.length w) (w +:+ t) = w.
Proof.
  induction w as [|a w IH]; [by destruct t|]. rewrite app_cons_s. simpl.
  by rewrite IH.
Qed.

Lemma consumed_app w t : consumed (w +:+ t) t = w.
Proof.
  unfold consumed. rewrite length_app_s.
  replace (String.length w + String.length t - String.length t)
    with (String.length w) by lia.
  apply str_take_app.
Qed.

(** [find] finds exactly the needles that occur. *)
Lemma find_contains s w : find s w ≠ npos ↔ contains s w.
Proof.
  unfold npos, contains. induction s as [|a s IH]; simpl.
  - destruct (starts_with w "") eqn:E.
    + split; [intros _|done]. apply starts_with_iff in E as [t E].
      exists "", t. by rewrite app_nil_l_s.
    + split; [done|]. intros (x & y & H). exfalso.
      destruct x; [|done]. rewrite app_nil_l_s in H.
      assert (starts_with w "" = true) as E'
        by (apply starts_with_iff; eauto). congruence.
  - destruct (starts_with w (String a s)) eqn:E.
    + split; [intros _|done]. apply starts_with_iff in E as [t E].
      exists "", t. by rewrite app_nil_l_s.
    + destruct (find s w) as [k|] eqn:F; simpl.
      * split; [intros _|done]. destruct IH as [IH _].
        destruct IH as (x & y & ->); [done|]. exists (String a x), y.
        by rewrite app_cons_s.
      * split; [done|]. intros (x & y & H). exfalso. destruct x as [|b x].
        -- rewrite app_nil_l_s in H.
           assert (starts_with w (String a s) = true) as E'
             by (apply starts_with_iff; eauto). congruence.
        -- rewrite app_cons_s in H. injection H as -> ->.
           destruct IH as [_ IH]. apply IH; eauto.
Qed.

Lemma find_contains_true s w :
  contains s w → bool_decide (find s w ≠ npos) = true.
Proof. intros H. apply bool_decide_eq_true. by apply find_contains. Qed.

Lemma contains_app_r s t w : contains t w → contains (s +:+ t) w.
Proof.
  intros (x & y & ->). exists (s +:+ x), y. by rewrite app_assoc_s.
Qed.

Lemma contains_app_l s t w : contains s w → contains (s +:+ t) w.
Proof.
  intros (x & y & ->). exists x, (y +:+ t). by rewrite !app_assoc_s.
Qed.

Lemma contains_self w : contains w w.
Proof. exists "", "". by rewrite app_nil_l_s, app_nil_r_s. Qed.
End strings.

(** ** The loops *)

Section loops.
Implicit Types lines done todo : list string.
Implicit Types it fuel : nat.

(** An [erase] followed by an [insert] at the iterator it returns
    overwrites the line under the iterator. *)
Lemma replace_at_insert lines it x :
  it < length lines → replace_at lines it x = (<[it := x]> lines, it).
Proof.
  intros Hit. unfold replace_at, vec_erase, vec_insert. f_equal.
  rewrite delete_take_drop, insert_take_drop by done.
  assert (it = length (take it lines)) as Hlen
    by (rewrite length_take; lia).
  by rewrite take_app_length', drop_app_length'.
Qed.

(** A loop whose body overwrites the line it reads with [g] of that line
    maps [g] over the vector, and the fuel of one unit per line is
    enough to reach the end. *)
Lemma for_each_line_from g body done todo fuel :
  (∀ lines it line,
     lines !! it = Some line →
     body lines it line = (<[it := g line]> lines, it)) →
  length todo ≤ fuel →
  for_each_line fuel body (done ++ todo) (length done) = done ++ (g <$> todo).
Proof.
  intros Hbody. revert done fuel.
  induction todo as [|x todo IH]; intros done fuel Hfuel.
  - simpl. rewrite !app_nil_r. destruct fuel; simpl; [done|].
    by rewrite lookup_ge_None_2.
  - destruct fuel as [|fuel]; simpl in *; [lia|].
    rewrite list_lookup_middle by done.
    rewrite (Hbody _ _ x) by (by apply list_lookup_middle).
    rewrite insert_app_r_alt, Nat.sub_diag by done. simpl.
    replace (S (length done)) with (length (done ++ [g x]))
      by (rewrite length_app; simpl; lia).
    rewrite (cons_middle (g x)), (assoc_L (++)).
    rewrite IH by lia. by rewrite <- (assoc_L (++)).
Qed.

Lemma for_each_line_map g body lines :
  (∀ lines it line,
     lines !! it = Some line →
     body lines it line = (<[it := g line]> lines, it)) →
  for_each_line (length lines) body lines 0 = g <$> lines.
Proof.
  intros Hbody. by apply (for_each_line_from g body [] lines).
Qed.

Lemma keep_line lines it line :
  lines !! it = Some line → (lines, it) = (<[it := line]> lines, it).
Proof. intros H. by rewrite list_insert_id. Qed.

Lemma put_line lines it line x :
  lines !! it = Some line →
  replace_at lines it x = (<[it := x]> lines, it).
Proof. intros H. apply replace_at_insert. by eapply lookup_lt_Some. Qed.

Theorem replaceMountLines_map lines device :
  replaceMountLines lines device = mount_line device <$> lines.
Proof.
  apply for_each_line_map. intros ls it line Hline.
  unfold mount_line, classify, isMountLine.
  fold (isSystem device line) (isCache device line) (isData device line).
  repeat case_match; simpl; eauto using keep_line, put_line.
Qed.

Theorem replaceUnmountLines_map lines device :
  replaceUnmountLines lines device = unmount_line device <$> lines.
Proof.
  apply for_each_line_map. intros ls it line Hline.
  unfold unmount_line, classify, isUnmountLine.
  fold (isSystem device line) (isCache device line) (isData device line).
  repeat case_match; simpl; eauto using keep_line, put_line.
Qed.

Theorem replaceFormatLines_map lines device :
  replaceFormatLines lines device = format_line device <$> lines.
Proof.
  apply for_each_line_map. intros ls it line Hline.
  unfold format_line, classify.
  fold (isSystem device line) (isCache device line) (isData device line).
  repeat case_match; simpl; eauto using keep_line, put_line.
Qed.

(** The loop of [removeDeviceChecks] reads every line and stores none. *)
Theorem removeDeviceChecks_unchanged lines : removeDeviceChecks lines = lines.
Proof.
  rewrite <- (list_fmap_id lines) at 2.
  apply (for_each_line_map (λ line, line)). intros ls it line Hline.
  case_match; by apply keep_line.
Qed.
End loops.

(** ** The matcher *)

Section matcher.
Implicit Types s t w : string.
Implicit Types c : captures.
Implicit Types st : mstate.
Implicit Types r K : regex.

Lemma not_nil_elem {A} (l : list A) : l ≠ [] ↔ ∃ x, x ∈ l.
Proof.
  destruct l as [|x l]; split; try done.
  - intros [x Hx]. by apply elem_of_nil in Hx.
  - intros _. exists x. left.
Qed.

(** A run of literal characters reads exactly itself. *)
Lemma run_lit n w c s :
  run n (lit w) (c, s)
  = if starts_with w s then [(c, str_drop (String.length w) s)] else [].
Proof.
  revert s. induction w as [|a w IH]; intros s; [by destruct s|].
  destruct s as [|b s]; [done|]. simpl. unfold step_cls. simpl.
  case_bool_decide; case_decide; try congruence; simpl; [|done].
  by rewrite IH, app_nil_r.
Qed.

Lemma run_seq_lit n w K c s :
  run n (lit w ⋅ K) (c, s)
  = if starts_with w s then run n K (c, str_drop (String.length w) s) else [].
Proof.
  change (run n (lit w ⋅ K) (c, s)) with (run n (lit w) (c, s) ≫= run n K).
  rewrite run_lit. destruct (starts_with w s); simpl; [|done].
  by rewrite app_nil_r.
Qed.

(** The greedy star of a character class stops at the positions [drops]
    lists, and the fuel of one unit per character suffices. *)
Lemma star_run_cls f p fuel c s :
  (∀ st, f st = step_cls p st) →
  String.length s ≤ fuel →
  star_run f fuel (c, s) = pair c <$> drops (cmatch p) s.
Proof.
  intros Hf. revert fuel. induction s as [|a s IH]; intros fuel Hfuel.
  - destruct fuel; simpl; [done|]. by rewrite Hf.
  - destruct fuel as [|fuel]; simpl in *; [lia|].
    rewrite Hf. unfold step_cls. simpl. destruct (cmatch p a); simpl.
    + rewrite filter_cons_True by (simpl; lia). simpl.
      rewrite IH by lia. by rewrite app_nil_r, fmap_app.
    + done.
Qed.

Lemma run_star_cls n p c s :
  run n (Star (Cls p)) (c, s) = pair c <$> drops (cmatch p) s.
Proof. simpl. by apply star_run_cls. Qed.

Lemma elem_of_drops p t s :
  t ∈ drops p s ↔ ∃ w, s = w +:+ t ∧ all_chars p w = true.
Proof.
  induction s as [|a s IH]; simpl.
  - rewrite list_elem_of_singleton. split.
    + intros ->. by exists "".
    + intros (w & H & _). destruct w; [done|]. by rewrite app_cons_s in H.
  - destruct (p a) eqn:Hp.
    + rewrite elem_of_app, list_elem_of_singleton, IH. split.
      * intros [(w & -> & Hw)| ->]; [|by exists ""].
        exists (String a w). simpl. by rewrite Hp, Hw.
      * intros (w & H & Hw). destruct w as [|b w]; [by right|left].
        rewrite app_cons_s in H. injection H as <- ->. simpl in Hw.
        apply andb_true_iff in Hw as [_ Hw]. eauto.
    + rewrite list_elem_of_singleton. split.
      * intros ->. by exists "".
      * intros (w & H & Hw). destruct w as [|b w]; [done|].
        rewrite app_cons_s in H. injection H as <- ->. simpl in Hw.
        by rewrite Hp in Hw.
Qed.

(** Membership in the runs of a concatenation, by its first factor. *)
Lemma elem_of_run_seq n r K st c s :
  st ∈ run n (r ⋅ K) (c, s) ↔ ∃ st', st' ∈ run n r (c, s) ∧ st ∈ run n K st'.
Proof.
  simpl. rewrite list_elem_of_bind. split; intros (st' & H1 & H2); eauto.
Qed.

Lemma elem_of_run_star_cls n p K st c s :
  st ∈ run n (Star (Cls p) ⋅ K) (c, s) ↔
  ∃ w t, s = w +:+ t ∧ all_chars (cmatch p) w = true ∧ st ∈ run n K (c, t).
Proof.
  rewrite elem_of_run_seq. setoid_rewrite run_star_cls.
  setoid_rewrite list_elem_of_fmap. setoid_rewrite elem_of_drops. split.
  - intros (st' & (t & -> & w & -> & Hw) & Hst). eauto.
  - intros (w & t & -> & Hw & Hst). exists (c, t). eauto 6.
Qed.

Lemma elem_of_run_lit n w K st c s :
  st ∈ run n (lit w ⋅ K) (c, s) ↔ ∃ t, s = w +:+ t ∧ st ∈ run n K (c, t).
Proof.
  rewrite run_seq_lit. destruct (starts_with w s) eqn:E.
  - apply starts_with_drop in E. split; [by eauto|].
    intros (t & Hs & Hst). rewrite Hs, str_drop_app. done.
  - split; [by intros ?%elem_of_nil|]. intros (t & -> & _).
    by rewrite starts_with_app in E.
Qed.

Lemma elem_of_run_cls n p K st c s :
  st ∈ run n (Cls p ⋅ K) (c, s) ↔
  ∃ a t, s = String a t ∧ cmatch p a = true ∧ st ∈ run n K (c, t).
Proof.
  rewrite elem_of_run_seq. simpl. unfold step_cls. simpl. split.
  - intros (st' & Hst' & Hst). destruct s as [|a s]; [by apply elem_of_nil in Hst'|].
    destruct (cmatch p a) eqn:E; [|by apply elem_of_nil in Hst'].
    apply list_elem_of_singleton in Hst' as ->. eauto.
  - intros (a & t & -> & -> & Hst). exists (c, t). split; [left|done].
Qed.

(** *** Leading white space and the call at the start of a line *)

Lemma lstrip_blank s : ∃ ws, blank ws = true ∧ s = ws +:+ lstrip s.
Proof.
  induction s as [|a s (ws & Hws & IH)]; [by exists ""|]. simpl.
  destruct (Ascii.is_space a) eqn:E; [|by exists ""].
  exists (String a ws). unfold blank in *. simpl. rewrite E, Hws.
  split; [done|]. by rewrite app_cons_s, <- IH.
Qed.

Lemma lstrip_app_blank ws t : blank ws = true → lstrip (ws +:+ t) = lstrip t.
Proof.
  unfold blank. induction ws as [|a ws IH]; [done|]. simpl.
  intros [Ha Hws]%andb_true_iff. rewrite Ha. auto.
Qed.

Lemma lstrip_not_space a t :
  Ascii.is_space a = false → lstrip (String a t) = String a t.
Proof. intros H. simpl. by rewrite H. Qed.

(** After [\s*], a pattern that cannot start on white space starts where
    the white space ends: no shorter stretch of white space is retried
    with success. *)
Lemma run_star_sp_skip n R c s :
  (∀ b t, Ascii.is_space b = true → run n R (c, String b t) = []) →
  run n (Star sp ⋅ R) (c, s) = run n R (c, lstrip s).
Proof.
  intros HR.
  change (run n (Star sp ⋅ R) (c, s))
    with (run n (Star (Cls CSpace)) (c, s) ≫= run n R).
  rewrite run_star_cls. simpl cmatch.
  induction s as [|a s IH]; simpl.
  - by rewrite app_nil_r.
  - destruct (Ascii.is_space a) eqn:E; simpl.
    + rewrite fmap_app, bind_app, IH. simpl.
      by rewrite (HR a s E), !app_nil_r.
    + by rewrite app_nil_r.
Qed.

Lemma run_lit_on_space n a w K c b t :
  Ascii.is_space a = false → Ascii.is_space b = true →
  run n (lit (String a w) ⋅ K) (c, String b t) = [].
Proof.
  intros Ha Hb. rewrite run_seq_lit. simpl.
  case_decide; [congruence|done].
Qed.

(** The common head [\s*fname\s*\(] of the anchored patterns. *)
Lemma run_call n a w K c s :
  Ascii.is_space a = false →
  run n (Star sp ⋅ lit (String a w) ⋅ Star sp ⋅ lit "(" ⋅ K) (c, s)
  = from_option (λ args, run n K (c, args)) [] (call_args (String a w) s).
Proof.
  intros Ha. rewrite run_star_sp_skip by (intros; by apply run_lit_on_space).
  rewrite run_seq_lit. unfold call_args.
  destruct (starts_with (String a w) (lstrip s)); [|done].
  rewrite run_star_sp_skip by (intros; by apply run_lit_on_space).
  rewrite run_seq_lit.
  by destruct (starts_with "(" _).
Qed.

Lemma run_call_end n a w c s :
  Ascii.is_space a = false →
  run n (Star sp ⋅ lit (String a w) ⋅ Star sp ⋅ lit "(") (c, s)
  = from_option (λ args, [(c, args)]) [] (call_args (String a w) s).
Proof.
  intros Ha. rewrite run_star_sp_skip by (intros; by apply run_lit_on_space).
  rewrite run_seq_lit. unfold call_args.
  destruct (starts_with (String a w) (lstrip s)); [|done].
  rewrite run_star_sp_skip.
  - rewrite run_lit. by destruct (starts_with "(" _).
  - intros b t Hb. rewrite run_lit. simpl. case_decide; [by subst b|done].
Qed.

Lemma call_args_shape fname s args :
  call_args fname s = Some args →
  ∃ ws1 ws2, blank ws1 = true ∧ blank ws2 = true ∧
             s = ws1 +:+ fname +:+ ws2 +:+ "(" +:+ args.
Proof.
  unfold call_args. intros H.
  destruct (starts_with fname (lstrip s)) eqn:E1; [|done].
  destruct (starts_with "(" _) eqn:E2; [|done]. injection H as <-.
  apply starts_with_drop in E1, E2.
  destruct (lstrip_blank s) as (ws1 & Hws1 & Hs).
  destruct (lstrip_blank (str_drop (String.length fname) (lstrip s)))
    as (ws2 & Hws2 & Hs2).
  exists ws1, ws2. split_and!; [done..|].
  rewrite Hs at 1. f_equal. rewrite E1 at 1. f_equal.
  rewrite Hs2 at 1. f_equal. done.
Qed.

Lemma call_args_of_shape a w ws1 ws2 args :
  Ascii.is_space a = false →
  blank ws1 = true → blank ws2 = true →
  call_args (String a w) (ws1 +:+ String a w +:+ ws2 +:+ "(" +:+ args)
  = Some args.
Proof.
  intros Ha H1 H2. unfold call_args.
  rewrite (lstrip_app_blank ws1) by done.
  rewrite app_cons_s, (lstrip_not_space a) by done.
  rewrite <- app_cons_s, starts_with_app, str_drop_app.
  rewrite (lstrip_app_blank ws2) by done.
  by rewrite app_cons_s.
Qed.

Lemma call_args_split fname s args :
  call_args fname s = Some args → s = consumed s args +:+ args.
Proof.
  intros (ws1 & ws2 & _ & _ & ->)%call_args_shape.
  assert (ws1 +:+ fname +:+ ws2 +:+ "(" +:+ args
          = (ws1 +:+ fname +:+ ws2 +:+ "(") +:+ args) as ->
    by (by rewrite !app_assoc_s).
  by rewrite consumed_app.
Qed.

Lemma call_args_shorter fname s args :
  fname ≠ "" → call_args fname s = Some args →
  String.length args < String.length s.
Proof.
  intros Hf (ws1 & ws2 & _ & _ & ->)%call_args_shape.
  rewrite !length_app_s. destruct fname; [done|]. simpl. lia.
Qed.

(** *** Searching *)

Lemma search_from_Some n r s x st :
  search_from n r s = Some (x, st) →
  ∃ t, s = x +:+ t ∧ head (run n r ([], t)) = Some st.
Proof.
  revert x. induction s as [|a s IH]; intros x; simpl.
  - destruct (run n r ([], "")) as [|st' l] eqn:E; [done|].
    intros [= <- <-]. exists "". by rewrite E.
  - destruct (run n r ([], String a s)) as [|st' l] eqn:E.
    + destruct (search_from n r s) as [[x' st']|]; [|done]. simpl.
      intros [= <- <-]. destruct (IH x' eq_refl) as (t & -> & Ht).
      exists t. by rewrite app_cons_s.
    + intros [= <- <-]. exists (String a s). by rewrite E.
Qed.

Lemma search_from_None n r s :
  search_from n r s = None ↔ ∀ x t, s = x +:+ t → run n r ([], t) = [].
Proof.
  induction s as [|a s IH]; simpl.
  - destruct (run n r ([], "")) as [|st' l] eqn:E.
    + split; [|done]. intros _ x t H. destruct x; [|done].
      rewrite app_nil_l_s in H. by subst t.
    + split; [done|]. intros H. specialize (H "" "" eq_refl). congruence.
  - destruct (run n r ([], String a s)) as [|st' l] eqn:E.
    + rewrite fmap_None, IH. split.
      * intros H x t Hx. destruct x as [|b x].
        -- rewrite app_nil_l_s in Hx. by subst t.
        -- rewrite app_cons_s in Hx. injection Hx as -> ->. by eapply H.
      * intros H x t ->. apply (H (String a x) t). by rewrite app_cons_s.
    + split; [done|]. intros H. specialize (H "" _ eq_refl). congruence.
Qed.

(** A line qualifies when the pattern matches some tail of it. *)
Lemma MBP_regex_search_true line r :
  MBP_regex_search line r = true ↔
  ∃ x t st, line = x +:+ t ∧ st ∈ run (String.length line) r ([], t).
Proof.
  unfold MBP_regex_search. rewrite bool_decide_eq_true. split.
  - intros [[x st] H]. apply search_from_Some in H as (t & -> & Ht).
    exists x, t, st. split; [done|]. by apply head_Some_elem_of.
  - intros (x & t & st & -> & Hst).
    destruct (search_from _ r (x +:+ t)) eqn:E; [done|]. exfalso.
    rewrite search_from_None in E. rewrite (E x t eq_refl) in Hst.
    by apply elem_of_nil in Hst.
Qed.

Lemma run_bol n R c s :
  run n (Bol ⋅ R) (c, s)
  = if decide (String.length s = n) then run n R (c, s) else [].
Proof. simpl. case_decide; simpl; [by rewrite app_nil_r|done]. Qed.

Lemma app_same_length x t :
  String.length t = String.length (x +:+ t) → x = "".
Proof. rewrite length_app_s. destruct x; [done|]. simpl. lia. Qed.

(** An anchored pattern is only tried on the whole line. *)
Lemma MBP_regex_search_bol line R :
  MBP_regex_search line (Bol ⋅ R) = true ↔
  ∃ st, st ∈ run (String.length line) R ([], line).
Proof.
  rewrite MBP_regex_search_true. split.
  - intros (x & t & st & -> & Hst). rewrite run_bol in Hst.
    case_decide as Hlen; [|by apply elem_of_nil in Hst].
    apply app_same_length in Hlen as ->. eauto.
  - intros [st Hst]. exists "", line, st. split; [done|].
    rewrite run_bol. by rewrite decide_True.
Qed.

Lemma search_from_head n r s st l :
  run n r ([], s) = st :: l → search_from n r s = Some ("", st).
Proof. intros H. destruct s; simpl search_from; by rewrite H. Qed.

Lemma search_from_bol_short n R s :
  String.length s < n → search_from n (Bol ⋅ R) s = None.
Proof.
  intros Hlen. apply search_from_None. intros x t ->. rewrite run_bol.
  rewrite length_app_s in Hlen. rewrite decide_False by lia. done.
Qed.

(** *** The replacement of [removeDeviceChecks] *)

Lemma expand_assert_fmt pre caps :
  expand assert_fmt ((1, pre) :: caps) = pre +:+ true_disjunct.
Proof. reflexivity. Qed.

Lemma MBP_regex_replace_assert line args :
  call_args "assert" line = Some args →
  MBP_regex_replace line reAssert assert_fmt
  = consumed line args +:+ true_disjunct +:+ args.
Proof.
  intros Hargs. unfold MBP_regex_replace. simpl replace_from.
  assert (search_from (String.length line) reAssert line
          = Some ("", ([(1, consumed line args)], args))) as ->.
  { apply search_from_head with (l := []).
    unfold reAssert. rewrite run_bol, decide_True by done.
    change (run ?n (Grp 1 ?r) ?st)
      with ((λ st', ((1, consumed st.2 st'.2) :: st'.1, st'.2))
              <$> run n r st).
    rewrite (run_call_end _ "a" "ssert") by done.
    change (String "a" "ssert") with "assert". by rewrite Hargs. }
  pose proof (call_args_shorter "assert" line args ltac:(done) Hargs) as Hlen.
  rewrite decide_False by (simpl; lia).
  rewrite app_nil_l_s, app_assoc_s.
  change (capture _ 1) with (consumed line args). do 2 f_equal.
  destruct (String.length line) as [|k] eqn:Hk; [done|]. simpl.
  unfold reAssert. by rewrite search_from_bol_short by lia.
Qed.
End matcher.

(** ** The device-check pattern *)

Section device_checks.
Implicit Types s t w line args : string.
Implicit Types c : captures.
Implicit Types st : mstate.

Lemma all_chars_any w : all_chars (cmatch CAny) w = true.
Proof. induction w; simpl; auto. Qed.

Lemma elem_of_run_lit_end n w st c s :
  st ∈ run n (lit w) (c, s) ↔ ∃ t, s = w +:+ t ∧ st = (c, t).
Proof.
  rewrite run_lit. destruct (starts_with w s) eqn:E.
  - apply starts_with_drop in E. rewrite list_elem_of_singleton.
    split; [by eauto|]. intros (t & Hs & ->). by rewrite Hs, str_drop_app.
  - split; [by intros ?%elem_of_nil|]. intros (t & -> & _).
    by rewrite starts_with_app in E.
Qed.

Lemma elem_of_run_grp n i r st c s :
  st ∈ run n (Grp i r) (c, s) ↔
  ∃ st0, st0 ∈ run n r (c, s) ∧ st = ((i, consumed s st0.2) :: st0.1, st0.2).
Proof.
  simpl. rewrite list_elem_of_fmap. split; intros (st0 & H1 & H2); eauto.
Qed.

Lemma elem_of_run_alt n r1 r2 st c s :
  st ∈ run n (Alt r1 r2) (c, s) ↔
  st ∈ run n r1 (c, s) ∨ st ∈ run n r2 (c, s).
Proof. simpl. apply elem_of_app. Qed.

(** The pattern of a property name reads exactly the names that
    [device_property_pattern] describes. *)
Lemma run_property_name n c s t :
  (∃ st, st.2 = t ∧
     st ∈ run n
       (Alt (lit "ro" ⋅ any ⋅ lit "product" ⋅ any ⋅ lit "device")
            (lit "ro" ⋅ any ⋅ lit "build" ⋅ any ⋅ lit "product")) (c, s))
  ↔ ∃ name, device_property_pattern name ∧ s = name +:+ t.
Proof.
  unfold any. split.
  - intros (st & <- & [H|H]%elem_of_run_alt).
    + apply elem_of_run_lit in H as (t1 & -> & H).
      apply elem_of_run_cls in H as (x & t2 & -> & _ & H).
      apply elem_of_run_lit in H as (t3 & -> & H).
      apply elem_of_run_cls in H as (y & t4 & -> & _ & H).
      apply elem_of_run_lit_end in H as (t5 & -> & ->).
      eexists. split; [exists x, y; left; reflexivity|]. reflexivity.
    + apply elem_of_run_lit in H as (t1 & -> & H).
      apply elem_of_run_cls in H as (x & t2 & -> & _ & H).
      apply elem_of_run_lit in H as (t3 & -> & H).
      apply elem_of_run_cls in H as (y & t4 & -> & _ & H).
      apply elem_of_run_lit_end in H as (t5 & -> & ->).
      eexists. split; [exists x, y; right; reflexivity|]. reflexivity.
  - intros (name & (x & y & [-> | ->]) & ->); exists (c, t); (split; [done|]);
      apply elem_of_run_alt; [left|right].
    + apply elem_of_run_lit. eexists. split; [reflexivity|].
      apply elem_of_run_cls. do 2 eexists. split_and!; [reflexivity|done|].
      apply elem_of_run_lit. eexists. split; [reflexivity|].
      apply elem_of_run_cls. do 2 eexists. split_and!; [reflexivity|done|].
      apply elem_of_run_lit_end. eexists. split; reflexivity.
    + apply elem_of_run_lit. eexists. split; [reflexivity|].
      apply elem_of_run_cls. do 2 eexists. split_and!; [reflexivity|done|].
      apply elem_of_run_lit. eexists. split; [reflexivity|].
      apply elem_of_run_cls. do 2 eexists. split_and!; [reflexivity|done|].
      apply elem_of_run_lit_end. eexists. split; reflexivity.
Qed.

(** [reLine_args] matches from the start of the arguments exactly when
    they hold the lookup. *)
Lemma run_reLine_args n c args :
  (∃ st, st ∈ run n reLine_args (c, args))
  ↔ getprop_lookup device_property_pattern args.
Proof.
  unfold reLine_args, getprop_lookup, any, sp. split.
  - intros [st H].
    apply elem_of_run_star_cls in H as (a & t1 & -> & _ & H).
    apply elem_of_run_lit in H as (t2 & -> & H).
    apply elem_of_run_star_cls in H as (ws & t3 & -> & Hws & H).
    apply elem_of_run_lit in H as (t4 & -> & H).
    apply elem_of_run_star_cls in H as (b & t5 & -> & _ & H).
    apply elem_of_run_grp in H as (st0 & H & _).
    destruct (proj1 (run_property_name n c t5 st0.2)) as (name & Hname & ->);
      [by exists st0|].
    exists a, ws, b, name, st0.2. done.
  - intros (a & ws & b & name & z & -> & Hws & Hname).
    destruct (proj2 (run_property_name n c (name +:+ z) z)) as (st0 & Hz & H);
      [by exists name|].
    eexists. apply elem_of_run_star_cls.
    exists a. eexists. split_and!; [reflexivity|apply all_chars_any|].
    apply elem_of_run_lit. eexists. split; [reflexivity|].
    apply elem_of_run_star_cls.
    exists ws. eexists. split_and!; [reflexivity|done|].
    apply elem_of_run_lit. eexists. split; [reflexivity|].
    apply elem_of_run_star_cls.
    exists b. eexists. split_and!; [reflexivity|apply all_chars_any|].
    apply elem_of_run_grp. exists st0. split; [exact H|reflexivity].
Qed.

(** A line qualifies for [removeDeviceChecks] exactly when it begins with
    a call of [assert] whose arguments hold the lookup. *)
Lemma reLine_qualifies line :
  MBP_regex_search line reLine = true ↔
  ∃ args, call_args "assert" line = Some args
          ∧ getprop_lookup device_property_pattern args.
Proof.
  change reLine
    with (Bol ⋅ Star sp ⋅ lit "assert" ⋅ Star sp ⋅ lit "(" ⋅ reLine_args)%re.
  rewrite MBP_regex_search_bol.
  setoid_rewrite (run_call _ "a" "ssert"); [|done].
  change (String "a" "ssert") with "assert".
  destruct (call_args "assert" line) as [args|]; cbn [from_option].
  - rewrite run_reLine_args. split; [by eauto|]. by intros (? & [= <-] & ?).
  - split; [by intros [? ?%elem_of_nil]|]. by intros (? & ? & _).
Qed.

Lemma device_property_spelled name :
  device_property name → device_property_pattern name.
Proof. intros [-> | ->]; exists "."%char, "."%char; auto. Qed.

Lemma getprop_lookup_mono (P Q : string → Prop) args :
  (∀ name, P name → Q name) → getprop_lookup P args → getprop_lookup Q args.
Proof.
  intros HPQ (a & ws & b & name & z & ? & ? & ?).
  exists a, ws, b, name, z. auto.
Qed.

Lemma getprop_lookup_later P w args :
  getprop_lookup P args → getprop_lookup P (w +:+ args).
Proof.
  intros (a & ws & b & name & z & -> & ? & ?).
  exists (w +:+ a), ws, b, name, z. by rewrite app_assoc_s.
Qed.

(** What [removeDeviceChecks] makes of a line that qualifies. *)
Lemma assert_line_qualified line args :
  call_args "assert" line = Some args →
  getprop_lookup device_property_pattern args →
  assert_line line = consumed line args +:+ true_disjunct +:+ args.
Proof.
  intros Hargs Hlookup. unfold assert_line.
  rewrite (proj2 (reLine_qualifies line)) by eauto.
  by apply MBP_regex_replace_assert.
Qed.
End device_checks.

(** ** The passes *)

Section passes.
Implicit Types lines : list string.
Implicit Types line args : string.

Lemma run_pass_map p lines device :
  run_pass p lines device = pass_line p device <$> lines.
Proof.
  destruct p as [[]|]; simpl;
    auto using replaceMountLines_map, replaceUnmountLines_map,
      replaceFormatLines_map.
  by rewrite removeDeviceChecks_unchanged, list_fmap_id.
Qed.

Lemma patchFiles_unfold this contents :
  patchFiles this contents
  = (true,
     join (removeDeviceChecks_if_requested this
             (rewrite_statements (split (is_any_of (String LF "")) contents)
                (device (info (m_impl this)))))
       (String LF "")).
Proof. reflexivity. Qed.

Lemma classify_system device line :
  contains line "system" → classify device line = Some "/system".
Proof.
  intros H. unfold classify, isSystem.
  by rewrite (find_contains_true line System H).
Qed.

Lemma mapped_contains line path :
  negb (empty path) && bool_decide (find line path ≠ npos) = true
  ↔ path ≠ "" ∧ contains line path.
Proof.
  unfold empty.
  by rewrite andb_true_iff, negb_true_iff, bool_decide_eq_false,
    bool_decide_eq_true, find_contains.
Qed.

Lemma isSystem_refers device line :
  isSystem device line = true ↔ refers_to device System line.
Proof.
  unfold isSystem, refers_to.
  by rewrite orb_true_iff, mapped_contains, bool_decide_eq_true, find_contains.
Qed.

Lemma isCache_refers device line :
  isCache device line = true ↔ refers_to device Cache line.
Proof.
  unfold isCache, refers_to.
  by rewrite orb_true_iff, mapped_contains, bool_decide_eq_true, find_contains.
Qed.

Lemma isData_refers device line :
  isData device line = true ↔ refers_to_data device line.
Proof.
  unfold isData, refers_to_data.
  rewrite !orb_true_iff, mapped_contains, !bool_decide_eq_true, !find_contains.
  tauto.
Qed.

(** The classifier tries System, then Cache, then Data. *)
Lemma classify_precedence device line :
  (refers_to device System line → classify device line = Some "/system")
  ∧ (¬ refers_to device System line → refers_to device Cache line →
     classify device line = Some "/cache")
  ∧ (¬ refers_to device System line → ¬ refers_to device Cache line →
     refers_to_data device line → classify device line = Some "/data")
  ∧ (¬ refers_to device System line → ¬ refers_to device Cache line →
     ¬ refers_to_data device line → classify device line = None).
Proof.
  rewrite <- isSystem_refers, <- isCache_refers, <- isData_refers.
  unfold classify.
  destruct (isSystem device line), (isCache device line),
    (isData device line); split_and!; intros; congruence.
Qed.

Lemma true_disjunct_grows args : true_disjunct +:+ args ≠ args.
Proof.
  intros H. apply (f_equal String.length) in H.
  rewrite length_app_s in H. simpl in H. lia.
Qed.
End passes.

(** C2, where the code departs from the claim: for a line that begins,
    after optional white space, with [assert(] and whose arguments hold a
    [getprop] lookup followed by [ro.product.device] or [ro.build.product],
    [removeDeviceChecks] finds the line and its call of [MBP_regex_replace]
    computes the line with ['true' == 'true' || ] right after the opening
    parenthesis, the line the claim describes; but the value is dropped, so
    the line, and with it the whole script, is returned as it was whether or
    not the removal of device checks is requested. *)
Theorem device_check_removal_dropped this lines i ws1 ws2 args :
  let line := ws1 +:+ "assert" +:+ ws2 +:+ "(" +:+ args in
  let stripped :=
    ws1 +:+ "assert" +:+ ws2 +:+ "(" +:+ true_disjunct +:+ args in
  blank ws1 = true → blank ws2 = true →
  getprop_lookup device_property args →
  lines !! i = Some line →
  MBP_regex_search line reLine = true
  ∧ MBP_regex_replace line reAssert assert_fmt = stripped
  ∧ stripped ≠ line
  ∧ removeDeviceChecks_if_requested this lines !! i = Some line
  ∧ removeDeviceChecks_if_requested this lines = lines.
Proof.
  intros line stripped Hws1 Hws2 Hlookup Hline.
  pose proof (call_args_of_shape "a" "ssert" ws1 ws2 args eq_refl Hws1 Hws2)
    as Hargs.
  change (String "a" "ssert") with "assert" in Hargs. fold line in Hargs.
  assert (getprop_lookup device_property_pattern args) as Hpattern
    by eauto using getprop_lookup_mono, device_property_spelled.
  assert (removeDeviceChecks_if_requested this lines = lines) as Hsame.
  { unfold removeDeviceChecks_if_requested.
    destruct (negb _); [apply removeDeviceChecks_unchanged|done]. }
  split_and!.
  - apply reLine_qualifies. eauto.
  - rewrite (MBP_regex_replace_assert _ _ Hargs). unfold line, stripped.
    assert (ws1 +:+ "assert" +:+ ws2 +:+ "(" +:+ args
            = (ws1 +:+ "assert" +:+ ws2 +:+ "(") +:+ args) as ->
      by (by rewrite !app_assoc_s).
    by rewrite consumed_app, !app_assoc_s.
  - unfold line, stripped. intros Heq. do 4 apply app_inv_head_s in Heq.
    by apply true_disjunct_grows in Heq.
  - by rewrite Hsame.
  - done.
Qed.

Lemma device_check_removal_dropped_witness :
  blank "" = true ∧
  getprop_lookup device_property sample_assert_args ∧
  [sample_assert] !! 0
  = Some ("" +:+ "assert" +:+ "" +:+ "(" +:+ sample_assert_args) ∧
  MBP_regex_replace sample_assert reAssert assert_fmt
  = "assert(" +:+ true_disjunct +:+ sample_assert_args ∧
  removeDeviceChecks_if_requested (sample_patcher unmapped_device false)
    [sample_assert] !! 0
  = Some sample_assert.
Proof.
  assert (getprop_lookup device_property sample_assert_args) as Hlookup.
  { exists "", "", (String DQ ""), "ro.product.device",
      (cstr "') == 'jflte');").
    split_and!; [reflexivity|reflexivity|left; reflexivity]. }
  pose proof (device_check_removal_dropped
                (sample_patcher unmapped_device false)
                [sample_assert] 0 "" "" sample_assert_args
                eq_refl eq_refl Hlookup eq_refl) as (_ & Hvalue & _ & Hkept & _).
  split_and!; [reflexivity|exact Hlookup|reflexivity|exact Hvalue|exact Hkept].
Defined.

(** C6, where the code departs from the claim: because the value of
    [MBP_regex_replace] is dropped, [removeDeviceChecks] leaves a line that
    qualifies as it is, and a second application changes nothing either.
    The values it computes behave as the claim says: the line computed for
    a qualifying line qualifies again, and the line computed for that one
    holds the disjunct twice. *)
Theorem removeDeviceChecks_twice lines i line :
  lines !! i = Some line →
  MBP_regex_search line reLine = true →
  removeDeviceChecks lines !! i = Some line
  ∧ removeDeviceChecks (removeDeviceChecks lines) = removeDeviceChecks lines
  ∧ ∃ ws1 ws2 args,
      blank ws1 = true ∧ blank ws2 = true
      ∧ line = ws1 +:+ "assert" +:+ ws2 +:+ "(" +:+ args
      ∧ assert_line line
        = ws1 +:+ "assert" +:+ ws2 +:+ "(" +:+ true_disjunct +:+ args
      ∧ assert_line (assert_line line)
        = ws1 +:+ "assert" +:+ ws2 +:+ "("
          +:+ true_disjunct +:+ true_disjunct +:+ args
      ∧ assert_line (assert_line line) ≠ assert_line line.
Proof.
  intros Hline (args & Hargs & Hlookup)%reLine_qualifies.
  rewrite !removeDeviceChecks_unchanged. split_and!; [done..|].
  destruct (call_args_shape _ _ _ Hargs) as (ws1 & ws2 & Hws1 & Hws2 & ->).
  exists ws1, ws2, args.
  assert (∀ rest, getprop_lookup device_property_pattern rest →
            assert_line (ws1 +:+ "assert" +:+ ws2 +:+ "(" +:+ rest)
            = ws1 +:+ "assert" +:+ ws2 +:+ "(" +:+ true_disjunct +:+ rest)
    as Hstep.
  { intros rest Hrest.
    pose proof (call_args_of_shape "a" "ssert" ws1 ws2 rest eq_refl Hws1 Hws2)
      as Hcall.
    change (String "a" "ssert") with "assert" in Hcall.
    rewrite (assert_line_qualified _ rest Hcall Hrest).
    assert (ws1 +:+ "assert" +:+ ws2 +:+ "(" +:+ rest
            = (ws1 +:+ "assert" +:+ ws2 +:+ "(") +:+ rest) as ->
      by (by rewrite !app_assoc_s).
    by rewrite consumed_app, !app_assoc_s. }
  rewrite (Hstep args Hlookup).
  rewrite (Hstep _ (getprop_lookup_later _ true_disjunct _ Hlookup)).
  split_and!; try done.
  intros Heq. do 4 apply app_inv_head_s in Heq.
  by apply true_disjunct_grows in Heq.
Qed.

Lemma removeDeviceChecks_twice_witness :
  [sample_assert] !! 0 = Some sample_assert ∧
  MBP_regex_search sample_assert reLine = true ∧
  removeDeviceChecks [sample_assert] !! 0 = Some sample_assert ∧
  removeDeviceChecks (removeDeviceChecks [sample_assert])
  = removeDeviceChecks [sample_assert].
Proof.
  pose proof (removeDeviceChecks_twice [sample_assert] 0 sample_assert
                eq_refl eq_refl) as (Hone & Htwo & _).
  split_and!; [reflexivity|reflexivity|exact Hone|exact Htwo].
Defined.

(** ** Text and lines *)

Section text.
Implicit Types s : string.
Implicit Types lines : list string.
Variable pred : ascii → bool.
Variable sep : ascii.
Hypothesis pred_sep : ∀ a, pred a = true ↔ a = sep.

Lemma split_not_nil s : split pred s ≠ [].
Proof.
  destruct s as [|a s]; simpl; [done|].
  destruct (pred a); [done|]. by destruct (split pred s).
Qed.

Lemma join_cons tok lines w :
  lines ≠ [] → join (tok :: lines) w = tok +:+ w +:+ join lines w.
Proof. by destruct lines. Qed.

(** Joining what was split gives the text back. *)
Lemma join_split_sep s : join (split pred s) (String sep "") = s.
Proof.
  induction s as [|a s IH]; [done|]. simpl split.
  destruct (pred a) eqn:E.
  - apply pred_sep in E as ->.
    rewrite join_cons by apply split_not_nil. by rewrite IH.
  - pose proof (split_not_nil s) as Hne.
    destruct (split pred s) as [|tok toks]; [done|].
    destruct toks as [|tok' toks]; simpl in *; [by rewrite IH|].
    rewrite app_cons_s. by rewrite IH.
Qed.

Lemma split_no_sep s :
  Forall (λ line, all_chars (λ a, negb (pred a)) line = true) (split pred s).
Proof.
  induction s as [|a s IH]; simpl split; [by constructor|].
  destruct (pred a) eqn:E; [by constructor|].
  destruct (split pred s) as [|tok toks];
    [by constructor; [simpl; rewrite E|]|].
  inversion_clear IH as [|?? Htok Htoks]. constructor; [|done].
  simpl. by rewrite E, Htok.
Qed.

Lemma split_single line :
  all_chars (λ a, negb (pred a)) line = true → split pred line = [line].
Proof.
  induction line as [|a line IH]; [done|]. simpl.
  intros [Ha Hline]%andb_true_iff. apply negb_true_iff in Ha.
  rewrite Ha. by rewrite IH.
Qed.

Lemma split_cons_sep a s :
  pred a = true → split pred (String a s) = "" :: split pred s.
Proof. intros H. simpl. by rewrite H. Qed.

Lemma split_cons_other a s :
  pred a = false →
  split pred (String a s)
  = match split pred s with
    | tok :: toks => String a tok :: toks
    | [] => [String a ""]
    end.
Proof. intros H. simpl. by rewrite H. Qed.

(** Splitting what was joined gives the lines back, when none of them
    holds the separator. *)
Lemma split_join_sep lines :
  lines ≠ [] →
  Forall (λ line, all_chars (λ a, negb (pred a)) line = true) lines →
  split pred (join lines (String sep "")) = lines.
Proof.
  intros Hne Hall. induction Hall as [|line lines Hline Hall IH]; [done|].
  destruct lines as [|line' lines]; [by apply split_single|].
  rewrite join_cons by done. specialize (IH ltac:(done)).
  clear Hall Hne. induction line as [|a line IHl].
  - rewrite app_nil_l_s. rewrite app_cons_s, app_nil_l_s.
    rewrite split_cons_sep by by apply pred_sep. by rewrite IH.
  - simpl in Hline.
    apply andb_true_iff in Hline as [Ha Hline]. apply negb_true_iff in Ha.
    rewrite app_cons_s, split_cons_other by done. by rewrite IHl.
Qed.
End text.

Lemma is_any_of_LF a : is_any_of (String LF "") a = true ↔ a = LF.
Proof. simpl. case_decide; split; congruence. Qed.

Lemma join_split s :
  join (split (is_any_of (String LF "")) s) (String LF "") = s.
Proof. apply join_split_sep, is_any_of_LF. Qed.

Lemma split_one_line s :
  Forall (λ line, one_line line = true) (split (is_any_of (String LF "")) s).
Proof. apply split_no_sep. Qed.

Lemma split_join lines :
  lines ≠ [] → Forall (λ line, one_line line = true) lines →
  split (is_any_of (String LF "")) (join lines (String LF "")) = lines.
Proof. apply split_join_sep, is_any_of_LF. Qed.

Lemma all_chars_app p s t :
  all_chars p (s +:+ t) = all_chars p s && all_chars p t.
Proof.
  induction s as [|a s IH]; [done|].
  rewrite app_cons_s. simpl. rewrite IH. by rewrite andb_assoc.
Qed.

Lemma one_line_app s t : one_line (s +:+ t) = one_line s && one_line t.
Proof. apply all_chars_app. Qed.

(** ** Lines a pass leaves alone, lines it replaces *)

Section lines.
Implicit Types lines : list string.
Implicit Types line : string.

Lemma not_qualifies p line :
  qualifies p line = false ↔
  ∀ re, re ∈ pass_patterns p → MBP_regex_search line re = false.
Proof.
  unfold qualifies. induction (pass_patterns p) as [|re res IH]; simpl.
  - split; [|done]. by intros _ re ?%elem_of_nil.
  - rewrite orb_false_iff, IH. split.
    + intros [H1 H2] re' [->|?]%elem_of_cons; auto.
    + intros H. split; [apply H; left|]. intros re' ?. apply H. by right.
Qed.

Lemma pass_line_unqualified p device line :
  qualifies p line = false → pass_line p device line = line.
Proof.
  rewrite not_qualifies. intros H.
  destruct p as [[]|]; simpl in *; [..|done];
    unfold mount_line, isMountLine, unmount_line, isUnmountLine, format_line;
    by rewrite !H by (repeat constructor).
Qed.

Lemma pass_line_classified w device line :
  classified_line w line = true →
  pass_line (StatementPass w) device line
  = from_option (boost_format (template w)) line (classify device line).
Proof.
  destruct w; simpl; unfold mount_line, unmount_line, format_line;
    by intros ->.
Qed.

Lemma lookup_fmap_Some (f : string → string) lines i line :
  lines !! i = Some line → (f <$> lines) !! i = Some (f line).
Proof. intros H. by rewrite list_lookup_fmap, H. Qed.

Lemma map_fixed (f : string → string) lines :
  Forall (λ line, f line = line) lines → f <$> lines = lines.
Proof. induction 1; csimpl; congruence. Qed.

Lemma emitted_elem w path :
  path ∈ ["/system"; "/cache"; "/data"] →
  boost_format (template w) path ∈ emitted_lines.
Proof.
  intros Hpath. apply list_elem_of_In.
  repeat (apply elem_of_cons in Hpath as [->|Hpath]);
    [| | |by apply elem_of_nil in Hpath];
    destruct w; vm_compute; tauto.
Qed.

(** A statement rewriter keeps a line or puts one of [emitted_lines] in
    its place. *)
Lemma statement_line_cases w device line :
  pass_line (StatementPass w) device line = line
  ∨ pass_line (StatementPass w) device line ∈ emitted_lines.
Proof.
  pose proof (emitted_elem MountRewriter) as HM.
  pose proof (emitted_elem UnmountRewriter) as HU.
  pose proof (emitted_elem FormatRewriter) as HF.
  destruct w; simpl;
    unfold mount_line, unmount_line, format_line, classify;
    repeat case_match; simpl; auto;
    right; first [apply HM | apply HU | apply HF]; repeat constructor.
Qed.
End lines.

Lemma emitted_one_line line : line ∈ emitted_lines → one_line line = true.
Proof.
  assert (forallb one_line emitted_lines = true) as H by reflexivity.
  rewrite forallb_forall in H. intros Hline. by apply H, list_elem_of_In.
Qed.

Lemma pass_line_one_line p device line :
  one_line line = true → one_line (pass_line p device line) = true.
Proof.
  intros Hline. destruct p as [w|].
  - destruct (statement_line_cases w device line) as [-> | H]; [done|].
    by apply emitted_one_line.
  - done.
Qed.

Lemma run_pass_one_line p device lines :
  Forall (λ line, one_line line = true) lines →
  Forall (λ line, one_line line = true) (run_pass p lines device).
Proof.
  intros Hlines. rewrite run_pass_map, Forall_fmap.
  eapply Forall_impl; [exact Hlines|].
  intros line. apply pass_line_one_line.
Qed.

(** C8: every pass keeps the number of lines and their order.  The line at
    a position of the result is what the pass makes of the line at that
    position of its input, so the result of each pass, of the passes in
    sequence and of the whole rewrite has as many lines as the input. *)
Theorem passes_preserve_lines this lines dev contents :
  length (replaceMountLines lines dev) = length lines
  ∧ length (replaceUnmountLines lines dev) = length lines
  ∧ length (replaceFormatLines lines dev) = length lines
  ∧ length (removeDeviceChecks lines) = length lines
  ∧ (∀ p i, run_pass p lines dev !! i = pass_line p dev <$> lines !! i)
  ∧ length (removeDeviceChecks_if_requested this
              (rewrite_statements lines dev)) = length lines
  ∧ length (split (is_any_of (String LF "")) (patchFiles this contents).2)
    = length (split (is_any_of (String LF "")) contents).
Proof.
  assert (∀ ls d, length (replaceMountLines ls d) = length ls) as HM
    by (intros; by rewrite replaceMountLines_map, length_fmap).
  assert (∀ ls d, length (replaceUnmountLines ls d) = length ls) as HU
    by (intros; by rewrite replaceUnmountLines_map, length_fmap).
  assert (∀ ls d, length (replaceFormatLines ls d) = length ls) as HF
    by (intros; by rewrite replaceFormatLines_map, length_fmap).
  assert (∀ ls, length (removeDeviceChecks ls) = length ls) as HA
    by (intros; by rewrite removeDeviceChecks_unchanged).
  assert (∀ ls d,
            length (removeDeviceChecks_if_requested this
                      (rewrite_statements ls d)) = length ls) as Hall.
  { intros ls d. unfold removeDeviceChecks_if_requested, rewrite_statements.
    destruct (negb _); by rewrite ?HA, HF, HU, HM. }
  split_and!; try done.
  - intros p i. by rewrite run_pass_map, list_lookup_fmap.
  - rewrite patchFiles_unfold. simpl snd.
    set (ls := split _ contents). set (d := device _).
    rewrite split_join; [apply Hall| |].
    + intros Hnil. pose proof (Hall ls d) as Hlen. rewrite Hnil in Hlen.
      assert (ls ≠ []) as Hls by apply split_not_nil.
      clearbody ls. by destruct ls.
    + assert (Forall (λ line, one_line line = true) (rewrite_statements ls d))
        as Hone.
      { apply (run_pass_one_line (StatementPass FormatRewriter)).
        apply (run_pass_one_line (StatementPass UnmountRewriter)).
        apply (run_pass_one_line (StatementPass MountRewriter)).
        apply split_one_line. }
      unfold removeDeviceChecks_if_requested. destruct (negb _); [|done].
      by apply (run_pass_one_line AssertionPass d).
Qed.

(** C5: when no line of a script qualifies for any of the four passes, the
    rewrite (split at line feeds, run the passes, join with line feeds)
    returns the script unchanged. *)
Theorem rewrite_of_plain_script this contents :
  forallb qualifies_nowhere (split (is_any_of (String LF "")) contents) = true →
  patchFiles this contents = (true, contents).
Proof.
  intros Hplain. rewrite patchFiles_unfold. f_equal.
  rewrite <- (join_split contents) at 2. f_equal.
  set (lines := split _ contents) in *.
  assert (∀ p device, run_pass p lines device = lines) as Hpass.
  { intros p device. rewrite run_pass_map. apply map_fixed, Forall_forall.
    intros line Hin. apply pass_line_unqualified, not_qualifies.
    intros re Hre. rewrite forallb_forall in Hplain.
    specialize (Hplain line (proj1 (list_elem_of_In _ _) Hin)).
    unfold qualifies_nowhere in Hplain. rewrite forallb_forall in Hplain.
    apply negb_true_iff, Hplain, list_elem_of_In.
    destruct p as [[]|]; simpl in Hre;
      repeat (apply elem_of_cons in Hre as [->|Hre]);
      try (by apply elem_of_nil in Hre);
      unfold statement_patterns; simpl; repeat constructor. }
  unfold removeDeviceChecks_if_requested, rewrite_statements.
  rewrite (Hpass (StatementPass MountRewriter)).
  rewrite (Hpass (StatementPass UnmountRewriter)).
  rewrite (Hpass (StatementPass FormatRewriter)).
  destruct (negb _); [|done]. apply (Hpass AssertionPass unmapped_device).
Qed.

Lemma rewrite_of_plain_script_witness :
  forallb qualifies_nowhere (split (is_any_of (String LF "")) sample_plain)
  = true ∧
  patchFiles (sample_patcher unmapped_device false) sample_plain
  = (true, sample_plain).
Proof.
  split; [reflexivity|].
  apply (rewrite_of_plain_script (sample_patcher unmapped_device false)
           sample_plain eq_refl).
Defined.

(** C9: the error the component reports is the no-error value, for every
    instance and whatever it is asked to patch; patching itself never
    reports a failure. *)
Theorem error_is_no_error this :
  error this = PatcherError_default
  ∧ (∀ code, error this ≠ PatcherError_code code)
  ∧ (∀ contents, (patchFiles this contents).1 = true
                 ∧ error this = PatcherError_default).
Proof. by split_and!. Qed.

(** ** The lines the rewriters write *)

Section emitted.
Implicit Types lines : list string.
Implicit Types line : string.

Lemma emitted_qualify_nowhere :
  forallb (λ line,
             forallb (λ re, negb (MBP_regex_search line re))
               statement_patterns) emitted_lines = true.
Proof. vm_compute. reflexivity. Qed.

Lemma patterns_statement w re : re ∈ patterns w → re ∈ statement_patterns.
Proof.
  unfold statement_patterns. rewrite !elem_of_app. destruct w; auto.
Qed.

(** No statement rewriter touches a line one of them wrote. *)
Lemma emitted_fixed w device line :
  line ∈ emitted_lines → pass_line (StatementPass w) device line = line.
Proof.
  intros Hline. apply pass_line_unqualified, not_qualifies.
  intros re Hre%patterns_statement.
  pose proof emitted_qualify_nowhere as H. rewrite forallb_forall in H.
  specialize (H line (proj1 (list_elem_of_In _ _) Hline)).
  rewrite forallb_forall in H.
  by apply negb_true_iff, H, list_elem_of_In.
Qed.

Lemma rewrite_statements_map lines device :
  rewrite_statements lines device
  = (λ line, format_line device (unmount_line device (mount_line device line)))
      <$> lines.
Proof.
  unfold rewrite_statements.
  rewrite replaceMountLines_map, replaceUnmountLines_map,
    replaceFormatLines_map.
  by rewrite <- !list_fmap_compose.
Qed.

Lemma statements_line_idempotent device line :
  let f := λ line,
    format_line device (unmount_line device (mount_line device line)) in
  f (f line) = f line.
Proof.
  intros f. unfold f.
  pose proof (emitted_fixed MountRewriter device) as FM.
  pose proof (emitted_fixed UnmountRewriter device) as FU.
  pose proof (emitted_fixed FormatRewriter device) as FF.
  simpl in FM, FU, FF.
  destruct (statement_line_cases MountRewriter device line) as [EM|EM];
    simpl in EM.
  2: { set (m := mount_line device line) in *.
       by rewrite (FU m EM), (FF m EM), (FM m EM), (FU m EM), (FF m EM). }
  rewrite EM.
  destruct (statement_line_cases UnmountRewriter device line) as [EU|EU];
    simpl in EU.
  2: { set (u := unmount_line device line) in *.
       by rewrite (FF u EU), (FM u EU), (FU u EU), (FF u EU). }
  rewrite EU.
  destruct (statement_line_cases FormatRewriter device line) as [EF|EF];
    simpl in EF.
  2: { set (t := format_line device line) in *.
       by rewrite (FM t EF), (FU t EF), (FF t EF). }
  by rewrite EF, EM, EU, EF.
Qed.
End emitted.

(** C10: the three statement rewriters together are idempotent.  Whatever
    line one of them puts in place of another is one of the nine instances of
    the templates, none of which is matched by a pattern of any of the three;
    so a second run of the mount, unmount and format passes over their own
    result changes nothing. *)
Theorem statement_rewriters_idempotent lines device :
  (∀ w i line,
     lines !! i = Some line →
     run_rewriter w lines device !! i = Some line
     ∨ ∃ out, out ∈ emitted_lines
              ∧ run_rewriter w lines device !! i = Some out)
  ∧ emitted_lines
    = [boost_format Mount "/system"; boost_format Mount "/cache";
       boost_format Mount "/data"; boost_format Unmount "/system";
       boost_format Unmount "/cache"; boost_format Unmount "/data";
       boost_format Format "/system"; boost_format Format "/cache";
       boost_format Format "/data"]
  ∧ forallb (λ line,
               forallb (λ re, negb (MBP_regex_search line re))
                 statement_patterns) emitted_lines = true
  ∧ rewrite_statements (rewrite_statements lines device) device
    = rewrite_statements lines device.
Proof.
  split_and!.
  - intros w i line Hline.
    change (run_rewriter w) with (run_pass (StatementPass w)).
    rewrite run_pass_map, (lookup_fmap_Some _ _ _ _ Hline).
    destruct (statement_line_cases w device line) as [-> | Hout]; eauto.
  - reflexivity.
  - apply emitted_qualify_nowhere.
  - rewrite !rewrite_statements_map, <- list_fmap_compose.
    apply list_fmap_ext. intros i line _. apply statements_line_idempotent.
Qed.

(** ** The rules of the format rewriter that name their partition *)

Section explicit_rules.
Implicit Types line t : string.

Lemma call_args_starts fname line args :
  call_args fname line = Some args → starts_with fname (lstrip line) = true.
Proof.
  unfold call_args. by destruct (starts_with fname (lstrip line)).
Qed.

(** A line an anchored call pattern matches begins with that call. *)
Lemma search_call line a w K :
  Ascii.is_space a = false →
  MBP_regex_search line
    (Bol ⋅ Star sp ⋅ lit (String a w) ⋅ Star sp ⋅ lit "(" ⋅ K) = true →
  is_Some (call_args (String a w) line).
Proof.
  intros Ha [st Hst]%MBP_regex_search_bol. rewrite run_call in Hst by done.
  destruct (call_args (String a w) line); [done|].
  by apply elem_of_nil in Hst.
Qed.

(** A line cannot begin with both [format(] and [run_program(]. *)
Lemma format_sh_not_format line :
  MBP_regex_search line format_sh_re = true →
  MBP_regex_search line format_re = false.
Proof.
  intros Hsh. destruct (MBP_regex_search line format_re) eqn:Hf; [|done].
  apply (search_call _ "r" "un_program") in Hsh as [? Hsh]; [|done].
  apply (search_call _ "f" "ormat") in Hf as [? Hf]; [|done].
  apply call_args_starts in Hsh, Hf.
  destruct (lstrip line) as [|b t]; [done|]. simpl in Hsh, Hf.
  repeat case_decide; congruence.
Qed.

(** What a [delete_recursive] pattern matches holds the quoted path. *)
Lemma delete_match_contains line path :
  MBP_regex_search line
    (lit "delete_recursive" ⋅ Star sp ⋅ lit "(" ⋅ Star (none_of ")")
     ⋅ lit path) = true →
  contains line path.
Proof.
  intros (x & t & st & -> & H)%MBP_regex_search_true. unfold sp, none_of in H.
  apply elem_of_run_lit in H as (t1 & -> & H).
  apply elem_of_run_star_cls in H as (ws & t2 & -> & _ & H).
  apply elem_of_run_lit in H as (t3 & -> & H).
  apply elem_of_run_star_cls in H as (b & t4 & -> & _ & H).
  apply elem_of_run_lit_end in H as (t5 & -> & _).
  do 5 apply contains_app_r. apply contains_app_l, contains_self.
Qed.

Lemma contains_trans s w v : contains s w → contains w v → contains s v.
Proof.
  intros (x & y & ->) (x' & y' & ->). exists (x +:+ x'), (y' +:+ y).
  by rewrite !app_assoc_s.
Qed.

Lemma delete_system_contains line :
  MBP_regex_search line delete_system_re = true → contains line "system".
Proof.
  intros H%delete_match_contains. eapply contains_trans; [exact H|].
  by exists (String DQ "/"), (String DQ "").
Qed.

Lemma delete_cache_contains line :
  MBP_regex_search line delete_cache_re = true → contains line "cache".
Proof.
  intros H%delete_match_contains. eapply contains_trans; [exact H|].
  by exists (String DQ "/"), (String DQ "").
Qed.

Lemma format_line_rule rule device line :
  MBP_regex_search line (rule_pattern rule) = true →
  overridden rule device line = false →
  format_line device line = boost_format Format (rule_path rule).
Proof.
  intros Hrule Hover. unfold format_line.
  destruct rule; simpl in Hrule, Hover |- *.
  - rewrite (classify_system device line)
      by by apply delete_system_contains.
    rewrite Hrule. by destruct (MBP_regex_search line format_re).
  - apply orb_false_iff in Hover as [Hsys Hfmt]. rewrite Hsys, Hrule.
    destruct (MBP_regex_search line format_re); [|done].
    simpl in Hfmt. unfold classify, isCache. rewrite Hfmt.
    by rewrite (find_contains_true line Cache)
      by by apply delete_cache_contains.
  - apply orb_false_iff in Hover as [Hsys Hcache].
    by rewrite (format_sh_not_format line Hrule), Hsys, Hcache, Hrule.
Qed.
End explicit_rules.

Lemma format_line_taken rule device line :
  taken_by FormatRewriter rule line = true →
  format_line device line = boost_format Format (rule_path rule).
Proof.
  unfold taken_by, format_line.
  destruct (MBP_regex_search line format_re); [done|].
  destruct rule, (MBP_regex_search line delete_system_re),
    (MBP_regex_search line delete_cache_re),
    (MBP_regex_search line format_sh_re);
    cbn [negb andb rule_path]; intros H; first [discriminate H|reflexivity].
Qed.

(** A line that qualifies for a rewriter is classified, or taken by one of
    the rules of the format pass that come after the rule for [/system]. *)
Lemma pass_line_cases w device line :
  qualifies (StatementPass w) line = true →
  pass_line (StatementPass w) device line
  = from_option (boost_format (template w)) line (classify device line)
  ∨ taken_by w DeleteCache line = true
  ∨ taken_by w FormatSh line = true.
Proof.
  intros Hq. destruct (classified_line w line) eqn:E.
  { left. by apply pass_line_classified. }
  destruct w; simpl in E.
  - exfalso. apply not_true_iff_false in Hq; [done|]. apply not_qualifies.
    unfold isMountLine in E.
    apply orb_false_iff in E as [[E1 E2]%orb_false_iff E3].
    intros re Hre. simpl in Hre.
    repeat (apply elem_of_cons in Hre as [->|Hre]; [done|]).
    by apply elem_of_nil in Hre.
  - exfalso. apply not_true_iff_false in Hq; [done|]. apply not_qualifies.
    unfold isUnmountLine in E. apply orb_false_iff in E as [E1 E2].
    intros re Hre. simpl in Hre.
    repeat (apply elem_of_cons in Hre as [->|Hre]; [done|]).
    by apply elem_of_nil in Hre.
  - unfold taken_by. rewrite E. cbn [negb andb].
    destruct (MBP_regex_search line delete_system_re) eqn:Esys.
    { left. simpl. unfold format_line. rewrite E, Esys.
      by rewrite (classify_system device line)
        by by apply delete_system_contains. }
    destruct (MBP_regex_search line delete_cache_re) eqn:Ecache;
      [by right; left|].
    destruct (MBP_regex_search line format_sh_re) eqn:Esh;
      [by right; right|].
    exfalso. apply not_true_iff_false in Hq; [done|]. apply not_qualifies.
    intros re Hre. simpl in Hre.
    repeat (apply elem_of_cons in Hre as [->|Hre]; [done|]).
    by apply elem_of_nil in Hre.
Qed.

(** C1, the claim as it stands fails: the line
    [run_program('/system/bin/format.sh', '/data');] qualifies for the format
    pass and holds both [system] and [data], yet it is taken by the
    [format.sh] rule and rewritten with [/data].  In the same way the line
    [delete_recursive('/cache', '/data/system');] is taken by the
    [delete_recursive] rule for [/cache] and rewritten with [/cache]. *)
Lemma format_sh_counterexample :
  (qualifies (StatementPass FormatRewriter) sample_format_sh_system = true
   ∧ taken_by FormatRewriter FormatSh sample_format_sh_system = true
   ∧ contains sample_format_sh_system "system"
   ∧ contains sample_format_sh_system "data"
   ∧ replaceFormatLines [sample_format_sh_system] unmapped_device
     = [boost_format Format "/data"]
   ∧ replaceFormatLines [sample_format_sh_system] unmapped_device
     ≠ [boost_format Format "/system"])
  ∧ (qualifies (StatementPass FormatRewriter) sample_delete_cache_data = true
     ∧ taken_by FormatRewriter DeleteCache sample_delete_cache_data = true
     ∧ contains sample_delete_cache_data "system"
     ∧ contains sample_delete_cache_data "data"
     ∧ replaceFormatLines [sample_delete_cache_data] unmapped_device
       = [boost_format Format "/cache"]
     ∧ replaceFormatLines [sample_delete_cache_data] unmapped_device
       ≠ [boost_format Format "/system"]).
Proof.
  split; split_and!;
    try (apply find_contains; vm_compute; discriminate);
    try (vm_compute; reflexivity);
    vm_compute; discriminate.
Qed.

(** C1, amended: for a line that qualifies as a mount, unmount or format
    line the partition is chosen by trying System, then Cache, then Data, the
    first that applies deciding the path the line is rewritten with, except
    in two branches of the format pass: the [delete_recursive] rule for
    [/cache] takes its lines without asking for System, and the [format.sh]
    rule takes its lines without asking for System or Cache; they write
    [/cache] and [/data].  In particular a qualifying line outside these two
    branches that holds both [system] and [data] is rewritten with [/system]
    and not with [/data]. *)
Theorem classification_precedence w lines device i line :
  lines !! i = Some line →
  qualifies (StatementPass w) line = true →
  let rewritten path :=
    run_rewriter w lines device !! i
    = Some (boost_format (template w) path) in
  (refers_to device System line →
   taken_by w DeleteCache line = false → taken_by w FormatSh line = false →
   rewritten "/system")
  ∧ (¬ refers_to device System line → refers_to device Cache line →
     taken_by w FormatSh line = false → rewritten "/cache")
  ∧ (¬ refers_to device System line → ¬ refers_to device Cache line →
     refers_to_data device line → rewritten "/data")
  ∧ (contains line "system" → contains line "data" →
     taken_by w DeleteCache line = false → taken_by w FormatSh line = false →
     rewritten "/system" ∧ ¬ rewritten "/data")
  ∧ (taken_by w DeleteCache line = true → rewritten "/cache")
  ∧ (taken_by w FormatSh line = true → rewritten "/data").
Proof.
  intros Hline Hq rewritten.
  assert (∀ path, pass_line (StatementPass w) device line
                  = boost_format (template w) path → rewritten path)
    as Hpath.
  { intros path Hout. unfold rewritten.
    change (run_rewriter w) with (run_pass (StatementPass w)).
    rewrite run_pass_map, (lookup_fmap_Some _ _ _ _ Hline). by f_equal. }
  assert (∀ rule, taken_by w rule line = true → rewritten (rule_path rule))
    as Htaken.
  { intros rule Hrule. apply Hpath. destruct w; try done.
    by apply format_line_taken. }
  destruct (classify_precedence device line) as (HS & HC & HD & _).
  assert (refers_to device System line →
          taken_by w DeleteCache line = false →
          taken_by w FormatSh line = false → rewritten "/system") as Hsystem.
  { intros Hsys Hcache Hsh. apply Hpath.
    destruct (pass_line_cases w device line Hq) as [-> | [H | H]];
      [by rewrite HS|congruence..]. }
  split_and!.
  - exact Hsystem.
  - intros Hsys Hcache Hsh.
    destruct (pass_line_cases w device line Hq) as [Hout | [H | H]].
    + apply Hpath. by rewrite Hout, HC.
    + exact (Htaken DeleteCache H).
    + congruence.
  - intros Hsys Hcache Hdata.
    destruct (pass_line_cases w device line Hq) as [Hout | [H | H]].
    + apply Hpath. by rewrite Hout, HD.
    + destruct Hcache. left. apply delete_cache_contains.
      destruct w; try done. unfold taken_by in H.
      by apply andb_true_iff in H as [_ [_ H]%andb_true_iff].
    + exact (Htaken FormatSh H).
  - intros Hsys _ Hcache Hsh.
    assert (rewritten "/system") as Hrew
      by (apply Hsystem; [by left|done..]).
    split; [done|]. unfold rewritten in *. rewrite Hrew. intros [= Heq].
    by destruct w.
  - exact (Htaken DeleteCache).
  - exact (Htaken FormatSh).
Qed.

Lemma classification_precedence_witness :
  [sample_mount] !! 0 = Some sample_mount ∧
  qualifies (StatementPass MountRewriter) sample_mount = true ∧
  contains sample_mount "system" ∧ contains sample_mount "data" ∧
  taken_by MountRewriter DeleteCache sample_mount = false ∧
  taken_by MountRewriter FormatSh sample_mount = false ∧
  run_rewriter MountRewriter [sample_mount] unmapped_device !! 0
  = Some (boost_format (template MountRewriter) "/system") ∧
  run_rewriter MountRewriter [sample_mount] unmapped_device !! 0
  ≠ Some (boost_format (template MountRewriter) "/data").
Proof.
  assert (contains sample_mount "system") as Hsystem
    by (apply find_contains; vm_compute; discriminate).
  assert (contains sample_mount "data") as Hdata
    by (apply find_contains; vm_compute; discriminate).
  destruct (classification_precedence MountRewriter [sample_mount]
              unmapped_device 0 sample_mount eq_refl eq_refl)
    as (_ & _ & _ & Hboth & _).
  destruct (Hboth Hsystem Hdata eq_refl eq_refl) as [Hrewritten Hnot].
  split_and!; [reflexivity|reflexivity|exact Hsystem|exact Hdata
              |reflexivity|reflexivity|exact Hrewritten|exact Hnot].
Defined.

(** C4, the claim as it stands fails: the line
    [run_program('/tmp/format.sh');] qualifies for the format pass and
    refers to none of System, Cache and Data, yet the format pass rewrites it
    with [/data]. *)
Lemma format_sh_unclassified_counterexample :
  qualifies (StatementPass FormatRewriter) sample_format_sh = true
  ∧ taken_by FormatRewriter FormatSh sample_format_sh = true
  ∧ classify unmapped_device sample_format_sh = None
  ∧ ¬ refers_to unmapped_device System sample_format_sh
  ∧ ¬ refers_to unmapped_device Cache sample_format_sh
  ∧ ¬ refers_to_data unmapped_device sample_format_sh
  ∧ run_pass (StatementPass FormatRewriter) [sample_format_sh]
      unmapped_device !! 0
    = Some (boost_format Format "/data")
  ∧ run_pass (StatementPass FormatRewriter) [sample_format_sh]
      unmapped_device !! 0
    ≠ Some sample_format_sh.
Proof.
  split_and!.
  - vm_compute. reflexivity.
  - vm_compute. reflexivity.
  - vm_compute. reflexivity.
  - rewrite <- isSystem_refers. vm_compute. discriminate.
  - rewrite <- isCache_refers. vm_compute. discriminate.
  - rewrite <- isData_refers. vm_compute. discriminate.
  - vm_compute. reflexivity.
  - vm_compute. discriminate.
Qed.

Lemma pass_line_unreferred w device line :
  taken_by w FormatSh line = false →
  ¬ refers_to device System line → ¬ refers_to device Cache line →
  ¬ refers_to_data device line →
  pass_line (StatementPass w) device line = line.
Proof.
  intros Hsh HS HC HD.
  destruct (classify_precedence device line) as (_ & _ & _ & Hnone).
  specialize (Hnone HS HC HD).
  destruct w; simpl in Hsh |- *.
  - unfold mount_line. rewrite Hnone. by destruct (isMountLine line).
  - unfold unmount_line. rewrite Hnone. by destruct (isUnmountLine line).
  - unfold format_line. rewrite Hnone.
    destruct (MBP_regex_search line format_re); [done|].
    destruct (MBP_regex_search line delete_system_re) eqn:Esys.
    { destruct HS. left. by apply delete_system_contains. }
    destruct (MBP_regex_search line delete_cache_re) eqn:Ecache.
    { destruct HC. left. by apply delete_cache_contains. }
    cbn [negb andb] in Hsh. by rewrite Hsh.
Qed.

(** C4, amended: a pass leaves in its place, as it is, every line that none
    of its patterns matches; and a statement rewriter does the same with
    every line that refers to none of System, Cache and Data, qualifying or
    not, unless the format pass takes the line by its [format.sh] rule. *)
Theorem unqualified_lines_unchanged p lines device i line :
  lines !! i = Some line →
  qualifies p line = false
  ∨ (∃ w, p = StatementPass w ∧ taken_by w FormatSh line = false
          ∧ ¬ refers_to device System line ∧ ¬ refers_to device Cache line
          ∧ ¬ refers_to_data device line) →
  run_pass p lines device !! i = Some line.
Proof.
  intros Hline H. rewrite run_pass_map, (lookup_fmap_Some _ _ _ _ Hline).
  f_equal. destruct H as [H | (w & -> & Hsh & HS & HC & HD)].
  - by apply pass_line_unqualified.
  - by apply pass_line_unreferred.
Qed.

Lemma unqualified_lines_unchanged_witness :
  ([sample_umount] !! 0 = Some sample_umount ∧
   qualifies (StatementPass MountRewriter) sample_umount = false ∧
   run_pass (StatementPass MountRewriter) [sample_umount] unmapped_device !! 0
   = Some sample_umount)
  ∧ ([sample_mount_boot] !! 0 = Some sample_mount_boot ∧
     qualifies (StatementPass MountRewriter) sample_mount_boot = true ∧
     taken_by MountRewriter FormatSh sample_mount_boot = false ∧
     ¬ refers_to unmapped_device System sample_mount_boot ∧
     ¬ refers_to unmapped_device Cache sample_mount_boot ∧
     ¬ refers_to_data unmapped_device sample_mount_boot ∧
     run_pass (StatementPass MountRewriter) [sample_mount_boot]
       unmapped_device !! 0
     = Some sample_mount_boot).
Proof.
  assert (¬ refers_to unmapped_device System sample_mount_boot) as HS
    by (rewrite <- isSystem_refers; vm_compute; discriminate).
  assert (¬ refers_to unmapped_device Cache sample_mount_boot) as HC
    by (rewrite <- isCache_refers; vm_compute; discriminate).
  assert (¬ refers_to_data unmapped_device sample_mount_boot) as HD
    by (rewrite <- isData_refers; vm_compute; discriminate).
  split; [split_and!; [reflexivity|reflexivity|]
        |split_and!; [reflexivity|reflexivity|reflexivity
                     |exact HS|exact HC|exact HD|]].
  - apply (unqualified_lines_unchanged (StatementPass MountRewriter)
             [sample_umount] unmapped_device 0 sample_umount eq_refl).
    left. reflexivity.
  - apply (unqualified_lines_unchanged (StatementPass MountRewriter)
             [sample_mount_boot] unmapped_device 0 sample_mount_boot eq_refl).
    right. exists MountRewriter. split_and!; try reflexivity; assumption.
Defined.

(** C3, the claim as it stands fails: the line
    [delete_recursive('/cache', '/system');] names [/cache] in a
    [delete_recursive] call, yet the format pass rewrites it with [/system],
    because the [/system] rule comes first in the chain. *)
Lemma delete_cache_counterexample :
  MBP_regex_search sample_delete delete_cache_re = true
  ∧ replaceFormatLines [sample_delete] unmapped_device
    = [boost_format Format "/system"]
  ∧ replaceFormatLines [sample_delete] unmapped_device
    ≠ [boost_format Format "/cache"].
Proof.
  split_and!; [vm_compute; reflexivity|vm_compute; reflexivity|].
  vm_compute. discriminate.
Qed.

(** C3, amended: in the format pass a line matched by the pattern of an
    explicit rule ([delete_recursive] of [/system], [delete_recursive] of
    [/cache], a [format.sh] program) is replaced by the format template for
    the partition of the rule, whatever the device maps, unless an earlier
    branch of the chain rewrites it with another partition: never for
    [/system]; for [/cache] when the [/system] pattern also matches or the
    line begins with [format(] and is classified System; for [format.sh]
    when one of the [delete_recursive] patterns also matches. *)
Theorem explicit_format_rules rule lines device i line :
  lines !! i = Some line →
  MBP_regex_search line (rule_pattern rule) = true →
  overridden rule device line = false →
  replaceFormatLines lines device !! i
  = Some (boost_format Format (rule_path rule)).
Proof.
  intros Hline Hrule Hover.
  rewrite replaceFormatLines_map, (lookup_fmap_Some _ _ _ _ Hline).
  f_equal. by apply format_line_rule.
Qed.

Lemma explicit_format_rules_witness :
  [sample_delete] !! 0 = Some sample_delete ∧
  MBP_regex_search sample_delete (rule_pattern DeleteSystem) = true ∧
  overridden DeleteSystem sbin_device sample_delete = false ∧
  replaceFormatLines [sample_delete] sbin_device !! 0
  = Some (boost_format Format "/system").
Proof.
  split_and!; [reflexivity|reflexivity|reflexivity|].
  apply (explicit_format_rules DeleteSystem [sample_delete] sbin_device 0
           sample_delete eq_refl eq_refl eq_refl).
Defined.

(** C7, the claim as it stands fails: on a device whose System path is
    [/sbin], a text of the line, the unmount pass classifies the line as
    System and writes the [/system] helper call, not the [/cache] one. *)
Lemma umount_sample_counterexample :
  replaceMountLines [sample_umount] sbin_device = [sample_umount]
  ∧ replaceUnmountLines (replaceMountLines [sample_umount] sbin_device)
      sbin_device
    = [boost_format Unmount "/system"]
  ∧ replaceUnmountLines (replaceMountLines [sample_umount] sbin_device)
      sbin_device
    ≠ [boost_format Unmount "/cache"].
Proof.
  split_and!; [vm_compute; reflexivity|vm_compute; reflexivity|].
  vm_compute. discriminate.
Qed.

(** C7, amended: when the System path of the device is empty or does not
    occur in the line [run_program('/sbin/busybox', 'umount', '/cache');],
    the mount pass leaves that line unchanged, the unmount pass replaces it
    with the unmount template instantiated with [/cache], and this is what
    the whole rewrite returns for it. *)
Theorem umount_sample_rewrite this :
  let dev := device (info (m_impl this)) in
  partition dev System = "" ∨ ¬ contains sample_umount (partition dev System) →
  replaceMountLines [sample_umount] dev = [sample_umount]
  ∧ replaceUnmountLines (replaceMountLines [sample_umount] dev) dev
    = [boost_format Unmount "/cache"]
  ∧ boost_format Unmount "/cache"
    = cstr "run_program('/update-binary-tool', 'unmount', '/cache'};"
  ∧ patchFiles this sample_umount = (true, boost_format Unmount "/cache").
Proof.
  intros dev Hsystem.
  assert (isSystem dev sample_umount = false) as HnotSystem.
  { unfold isSystem.
    match goal with
    | |- ?b || _ = false => assert (b = false) as -> by reflexivity
    end.
    rewrite orb_false_l. destruct Hsystem as [-> | Hsystem]; [done|].
    apply andb_false_iff. right. apply bool_decide_eq_false.
    by rewrite find_contains. }
  assert (mount_line dev sample_umount = sample_umount) as HM by done.
  assert (unmount_line dev sample_umount = boost_format Unmount "/cache") as HU.
  { unfold unmount_line, classify.
    change (isUnmountLine sample_umount) with true. rewrite HnotSystem.
    unfold isCache.
    match goal with
    | |- context [?b || _] => assert (b = true) as -> by reflexivity
    end.
    done. }
  assert (boost_format Unmount "/cache" ∈ emitted_lines) as Hemitted
    by (apply (emitted_elem UnmountRewriter); repeat constructor).
  assert (replaceMountLines [sample_umount] dev = [sample_umount]) as HM'
    by (by rewrite replaceMountLines_map; simpl; rewrite HM).
  assert (replaceUnmountLines [sample_umount] dev
          = [boost_format Unmount "/cache"]) as HU'
    by (by rewrite replaceUnmountLines_map; simpl; rewrite HU).
  split_and!; [done|by rewrite HM'|done|].
  rewrite patchFiles_unfold. f_equal.
  change (split _ sample_umount) with [sample_umount].
  unfold rewrite_statements. fold dev. rewrite HM', HU'.
  rewrite replaceFormatLines_map.
  change (format_line dev <$> [?x]) with [format_line dev x].
  pose proof (emitted_fixed FormatRewriter dev _ Hemitted) as HF.
  change (pass_line _ dev ?x) with (format_line dev x) in HF. rewrite HF.
  unfold removeDeviceChecks_if_requested. destruct (negb _); [|done].
  by rewrite removeDeviceChecks_unchanged.
Qed.

Lemma umount_sample_rewrite_witness :
  (partition unmapped_device System = ""
   ∨ ¬ contains sample_umount (partition unmapped_device System))
  ∧ patchFiles (sample_patcher unmapped_device true) sample_umount
    = (true, cstr "run_program('/update-binary-tool', 'unmount', '/cache'};").
Proof.
  assert (partition unmapped_device System = ""
          ∨ ¬ contains sample_umount (partition unmapped_device System))
    as Hdev by (left; reflexivity).
  split; [exact Hdev|].
  apply (umount_sample_rewrite (sample_patcher unmapped_device true) Hdev).
Defined.

(** ** The examples of the specification *)

Example mount_example :
  replaceMountLines
    [cstr "mount('ext4', '/dev/block/mmcblk0p1', '/system');"] unmapped_device
  = [cstr "run_program('/update-binary-tool', 'mount', '/system'};"].
Proof. vm_compute. reflexivity. Qed.

Example umount_example :
  replaceUnmountLines [sample_umount] unmapped_device
  = [cstr "run_program('/update-binary-tool', 'unmount', '/cache'};"].
Proof. vm_compute. reflexivity. Qed.

Example assert_example_kept :
  (patchFiles (sample_patcher unmapped_device true) sample_assert).2
  = sample_assert.
Proof. vm_compute. reflexivity. Qed.

Example assert_example_requested :
  (patchFiles (sample_patcher unmapped_device false) sample_assert).2
  = sample_assert
  ∧ MBP_regex_replace sample_assert reAssert assert_fmt
    = cstr "assert('true' == 'true' || getprop('ro.product.device') == 'jflte');".
Proof. split; vm_compute; reflexivity. Qed.

Example script_example :
  (patchFiles (sample_patcher unmapped_device true)
     (cstr "mount('ext4', 'EMMC', '/dev/block/mmcblk0p9', '/system');"
      +:+ String LF (cstr "package_extract_dir('system', '/system');")
      +:+ String LF (cstr "format('ext4', 'EMMC', '/dev/block/mmcblk0p8');")
      +:+ String LF (cstr "unmount('/system');"))).2
  = cstr "run_program('/update-binary-tool', 'mount', '/system'};"
    +:+ String LF (cstr "package_extract_dir('system', '/system');")
    +:+ String LF (cstr "format('ext4', 'EMMC', '/dev/block/mmcblk0p8');")
    +:+ String LF (cstr "run_program('/update-binary-tool', 'unmount', '/system'};").
Proof. vm_compute. reflexivity. Qed.

(** * Further properties of the rewriters *)

(** ** Lines a rewriter recognises by their shape *)

Section shapes.
Implicit Types line args rest q : string.
Implicit Types lines : list string.

Lemma run_rest_of_line n c s : (c, "") ∈ run n (Star any ⋅ Eol) (c, s).
Proof.
  unfold any. apply elem_of_run_star_cls. exists s, "".
  split_and!; [by rewrite app_nil_r_s|apply all_chars_any|]. simpl. left.
Qed.

Lemma begins_with_call_args a w line :
  Ascii.is_space a = false →
  begins_with_call (String a w) line ↔ is_Some (call_args (String a w) line).
Proof.
  intros Ha. split.
  - intros (ws1 & ws2 & rest & H1 & H2 & ->).
    by rewrite call_args_of_shape.
  - intros [args Hargs]. apply call_args_shape in Hargs.
    destruct Hargs as (ws1 & ws2 & H1 & H2 & ->). by exists ws1, ws2, args.
Qed.

(** The patterns [^\s*name\s*\(.*$] match exactly the lines that begin with
    a call of [name]. *)
Lemma search_call_line a w line :
  Ascii.is_space a = false →
  MBP_regex_search line
    (Bol ⋅ Star sp ⋅ lit (String a w) ⋅ Star sp ⋅ lit "(" ⋅ Star any ⋅ Eol)
  = true
  ↔ begins_with_call (String a w) line.
Proof.
  intros Ha. rewrite begins_with_call_args by done. split.
  - by apply search_call.
  - intros [args Hargs]. apply MBP_regex_search_bol.
    exists ([], ""). rewrite run_call, Hargs by done. apply run_rest_of_line.
Qed.

Lemma classified_call w line :
  begins_with_call (call_name w) line → classified_line w line = true.
Proof.
  intros H. destruct w; simpl in *; unfold isMountLine, isUnmountLine.
  - pose proof (proj2 (search_call_line "m" "ount" line eq_refl) H) as E.
    fold mount_re1 in E. by rewrite E.
  - pose proof (proj2 (search_call_line "u" "nmount" line eq_refl) H) as E.
    fold unmount_re1 in E. by rewrite E.
  - by apply (search_call_line "f" "ormat" line eq_refl).
Qed.

Lemma pass_line_classified_result w device line :
  classified_line w line = true →
  classified_result w device line (pass_line (StatementPass w) device line).
Proof.
  intros Hw. rewrite (pass_line_classified w device line Hw).
  destruct (classify_precedence device line) as (HS & HC & HD & HN).
  split_and!; intros.
  - by rewrite HS.
  - by rewrite HC.
  - by rewrite HD.
  - by rewrite HN.
Qed.

Lemma run_rewriter_lookup w lines device i line :
  lines !! i = Some line →
  run_rewriter w lines device !! i
  = Some (pass_line (StatementPass w) device line).
Proof.
  intros Hline. change (run_rewriter w) with (run_pass (StatementPass w)).
  by rewrite run_pass_map, (lookup_fmap_Some _ _ _ _ Hline).
Qed.
End shapes.

(** X1: a line that begins, after optional white space, with a call of
    [mount], [unmount] or [format] is handled by the rewriter of that name:
    it is replaced by the template for the first of System, Cache, Data it
    refers to, and kept when it refers to none. *)
Theorem call_lines_rewritten w lines device i line :
  lines !! i = Some line →
  begins_with_call (call_name w) line →
  ∃ out, run_rewriter w lines device !! i = Some out
         ∧ classified_result w device line out.
Proof.
  intros Hline Hcall. eexists. split; [by apply run_rewriter_lookup|].
  by apply pass_line_classified_result, classified_call.
Qed.

Lemma call_lines_rewritten_witness :
  [sample_mount] !! 0 = Some sample_mount ∧
  begins_with_call (call_name MountRewriter) sample_mount ∧
  ∃ out, run_rewriter MountRewriter [sample_mount] unmapped_device !! 0
         = Some out
         ∧ classified_result MountRewriter unmapped_device sample_mount out.
Proof.
  assert (begins_with_call (call_name MountRewriter) sample_mount) as Hcall.
  { exists "", "",
      (cstr "'ext4', '/dev/block/mmcblk0p1', '/system', '/data/system');").
    split_and!; reflexivity. }
  split_and!; [reflexivity|exact Hcall|].
  apply (call_lines_rewritten MountRewriter [sample_mount] unmapped_device 0
           sample_mount eq_refl Hcall).
Defined.

(** Both sides of an equation between concatenations in normal form. *)
Ltac norm_app :=
  repeat first [rewrite app_assoc_s | rewrite app_cons_s | rewrite app_nil_l_s].

Section run_program_shapes.
Implicit Types line args rest q verb tool : string.
Implicit Types lines : list string.
Implicit Types c : captures.

Lemma run_eol n c s st : st ∈ run n Eol (c, s) ↔ s = "" ∧ st = (c, "").
Proof.
  simpl. case_decide as E; [subst s|].
  - rewrite list_elem_of_singleton. by split; [|intros [_ ->]].
  - rewrite elem_of_nil. by split; [|intros [? _]].
Qed.

(** The arguments the [busybox] patterns ask for. *)
Lemma run_busybox_args n c verb args :
  (∃ st, st ∈ run n
     (Star sp ⋅ Cls (CChar DQ) ⋅ Star (none_of (String DQ ""))
      ⋅ lit ("busybox" +:+ String DQ "") ⋅ Star sp ⋅ lit ","
      ⋅ Star sp ⋅ lit (String DQ (verb +:+ String DQ ""))
      ⋅ Star any ⋅ Eol) (c, args))
  ↔ ∃ ws3 q ws4 ws5 rest,
      blank ws3 = true ∧ blank ws4 = true ∧ blank ws5 = true
      ∧ free_of (String DQ "") q = true
      ∧ args = ws3 +:+ String DQ (q +:+ "busybox"
               +:+ String DQ (ws4 +:+ "," +:+ ws5
               +:+ String DQ (verb +:+ String DQ rest))).
Proof.
  unfold sp, any, none_of. split.
  - intros [st H].
    apply elem_of_run_star_cls in H as (ws3 & t1 & -> & H3 & H).
    apply elem_of_run_cls in H as (a & t2 & -> & Ha & H).
    apply bool_decide_eq_true in Ha as <-.
    apply elem_of_run_star_cls in H as (q & t3 & -> & Hq & H).
    apply elem_of_run_lit in H as (t4 & -> & H).
    apply elem_of_run_star_cls in H as (ws4 & t5 & -> & H4 & H).
    apply elem_of_run_lit in H as (t6 & -> & H).
    apply elem_of_run_star_cls in H as (ws5 & t7 & -> & H5 & H).
    apply elem_of_run_lit in H as (t8 & -> & H).
    exists ws3, q, ws4, ws5, t8. split_and!; try done. by norm_app.
  - intros (ws3 & q & ws4 & ws5 & rest & H3 & H4 & H5 & Hq & ->).
    exists (c, "").
    apply elem_of_run_star_cls. exists ws3. eexists. split_and!; [done..|].
    apply elem_of_run_cls. do 2 eexists.
    split_and!; [done|by apply bool_decide_eq_true|].
    apply elem_of_run_star_cls. exists q. eexists. split_and!; [done..|].
    apply elem_of_run_lit. exists (ws4 +:+ "," +:+ ws5
                                   +:+ String DQ (verb +:+ String DQ rest)).
    split; [done|].
    apply elem_of_run_star_cls. exists ws4. eexists. split_and!; [done..|].
    apply elem_of_run_lit. eexists. split; [done|].
    apply elem_of_run_star_cls. exists ws5. eexists. split_and!; [done..|].
    apply elem_of_run_lit. exists rest.
    split; [by norm_app|]. apply run_rest_of_line.
Qed.

(** The arguments the tool patterns ask for: [tool] is spelled by [name],
    which reads [w] exactly. *)
Lemma run_tool_args n c args :
  (∃ st, st ∈ run n
     (Star sp ⋅ Cls (CChar DQ) ⋅ Star (none_of (String DQ ","))
      ⋅ lit ("/mount" +:+ String DQ "") ⋅ Star any ⋅ Eol) (c, args))
  ↔ ∃ ws3 q rest,
      blank ws3 = true ∧ free_of (String DQ ",") q = true
      ∧ args = ws3 +:+ String DQ (q +:+ "/" +:+ "mount" +:+ String DQ rest).
Proof.
  unfold sp, any, none_of. split.
  - intros [st H].
    apply elem_of_run_star_cls in H as (ws3 & t1 & -> & H3 & H).
    apply elem_of_run_cls in H as (a & t2 & -> & Ha & H).
    apply bool_decide_eq_true in Ha as <-.
    apply elem_of_run_star_cls in H as (q & t3 & -> & Hq & H).
    apply elem_of_run_lit in H as (t4 & -> & H).
    by exists ws3, q, t4.
  - intros (ws3 & q & rest & H3 & Hq & ->). exists (c, "").
    apply elem_of_run_star_cls. exists ws3. eexists. split_and!; [done..|].
    apply elem_of_run_cls. do 2 eexists.
    split_and!; [done|by apply bool_decide_eq_true|].
    apply elem_of_run_star_cls. exists q. eexists. split_and!; [done..|].
    apply elem_of_run_lit. exists rest. split; [done|]. apply run_rest_of_line.
Qed.

Lemma run_format_sh_args n c args :
  (∃ st, st ∈ run n
     (Star sp ⋅ Cls (CChar DQ) ⋅ Star (none_of (String DQ ","))
      ⋅ lit "/format" ⋅ any ⋅ lit ("sh" +:+ String DQ "")
      ⋅ Star any ⋅ Eol) (c, args))
  ↔ ∃ ws3 q dot rest,
      blank ws3 = true ∧ free_of (String DQ ",") q = true
      ∧ args = ws3 +:+ String DQ (q +:+ "/"
               +:+ ("format" +:+ String dot "sh") +:+ String DQ rest).
Proof.
  unfold sp, any, none_of. split.
  - intros [st H].
    apply elem_of_run_star_cls in H as (ws3 & t1 & -> & H3 & H).
    apply elem_of_run_cls in H as (a & t2 & -> & Ha & H).
    apply bool_decide_eq_true in Ha as <-.
    apply elem_of_run_star_cls in H as (q & t3 & -> & Hq & H).
    apply elem_of_run_lit in H as (t4 & -> & H).
    apply elem_of_run_cls in H as (dot & t5 & -> & _ & H).
    apply elem_of_run_lit in H as (t6 & -> & H).
    by exists ws3, q, dot, t6.
  - intros (ws3 & q & dot & rest & H3 & Hq & ->). exists (c, "").
    apply elem_of_run_star_cls. exists ws3. eexists. split_and!; [done..|].
    apply elem_of_run_cls. do 2 eexists.
    split_and!; [done|by apply bool_decide_eq_true|].
    apply elem_of_run_star_cls. exists q. eexists. split_and!; [done..|].
    apply elem_of_run_lit. exists (String dot ("sh" +:+ String DQ rest)).
    split; [done|].
    apply elem_of_run_cls. do 2 eexists. split_and!; [done..|].
    apply elem_of_run_lit. exists rest. split; [done|]. apply run_rest_of_line.
Qed.

(** A pattern that begins with [^\s*run_program\s*\(] matches the lines
    that begin with that call and whose arguments its rest matches. *)
Lemma search_run_program line K :
  MBP_regex_search line
    (Bol ⋅ Star sp ⋅ lit "run_program" ⋅ Star sp ⋅ lit "(" ⋅ K) = true
  ↔ ∃ args, call_args "run_program" line = Some args
            ∧ ∃ st, st ∈ run (String.length line) K ([], args).
Proof.
  rewrite MBP_regex_search_bol.
  setoid_rewrite (run_call _ "r" "un_program"); [|done].
  change (String "r" "un_program") with "run_program".
  destruct (call_args "run_program" line) as [args|]; cbn [from_option].
  - split; [by eauto|]. by intros (? & [= <-] & ?).
  - split; [by intros [? ?%elem_of_nil]|]. by intros (? & ? & _).
Qed.

Lemma call_args_run_program line args :
  call_args "run_program" line = Some args ↔
  ∃ ws1 ws2, blank ws1 = true ∧ blank ws2 = true
             ∧ line = ws1 +:+ "run_program" +:+ ws2 +:+ "(" +:+ args.
Proof.
  split; [apply call_args_shape|].
  intros (ws1 & ws2 & H1 & H2 & ->).
  by apply (call_args_of_shape "r" "un_program").
Qed.

Lemma search_busybox_mount line :
  MBP_regex_search line mount_re2 = true ↔ busybox_call "mount" line.
Proof.
  unfold mount_re2, busybox_call. rewrite search_run_program.
  setoid_rewrite call_args_run_program.
  setoid_rewrite (run_busybox_args _ _ "mount"). split.
  - intros (args & (ws1 & ws2 & H1 & H2 & ->)
            & ws3 & q & ws4 & ws5 & rest & H3 & H4 & H5 & Hq & ->).
    by exists ws1, ws2, ws3, q, ws4, ws5, rest.
  - intros (ws1 & ws2 & ws3 & q & ws4 & ws5 & rest
            & H1 & H2 & H3 & H4 & H5 & Hq & ->).
    eexists. split; [by exists ws1, ws2|]. by exists ws3, q, ws4, ws5, rest.
Qed.

Lemma search_busybox_umount line :
  MBP_regex_search line unmount_re2 = true ↔ busybox_call "umount" line.
Proof.
  unfold unmount_re2, busybox_call. rewrite search_run_program.
  setoid_rewrite call_args_run_program.
  setoid_rewrite (run_busybox_args _ _ "umount"). split.
  - intros (args & (ws1 & ws2 & H1 & H2 & ->)
            & ws3 & q & ws4 & ws5 & rest & H3 & H4 & H5 & Hq & ->).
    by exists ws1, ws2, ws3, q, ws4, ws5, rest.
  - intros (ws1 & ws2 & ws3 & q & ws4 & ws5 & rest
            & H1 & H2 & H3 & H4 & H5 & Hq & ->).
    eexists. split; [by exists ws1, ws2|]. by exists ws3, q, ws4, ws5, rest.
Qed.

Lemma search_tool_mount line :
  MBP_regex_search line mount_re3 = true ↔ tool_call "mount" line.
Proof.
  unfold mount_re3, tool_call. rewrite search_run_program.
  setoid_rewrite call_args_run_program. setoid_rewrite run_tool_args. split.
  - intros (args & (ws1 & ws2 & H1 & H2 & ->) & ws3 & q & rest & H3 & Hq & ->).
    by exists ws1, ws2, ws3, q, rest.
  - intros (ws1 & ws2 & ws3 & q & rest & H1 & H2 & H3 & Hq & ->).
    eexists. split; [by exists ws1, ws2|]. by exists ws3, q, rest.
Qed.

Lemma search_format_sh line :
  MBP_regex_search line format_sh_re = true ↔ format_sh_call line.
Proof.
  unfold format_sh_re, format_sh_call, tool_call. rewrite search_run_program.
  setoid_rewrite call_args_run_program.
  setoid_rewrite run_format_sh_args. split.
  - intros (args & (ws1 & ws2 & H1 & H2 & ->)
            & ws3 & q & dot & rest & H3 & Hq & ->).
    by exists dot, ws1, ws2, ws3, q, rest.
  - intros (dot & ws1 & ws2 & ws3 & q & rest & H1 & H2 & H3 & Hq & ->).
    eexists. split; [by exists ws1, ws2|]. by exists ws3, q, dot, rest.
Qed.
End run_program_shapes.

Section delete_shapes.
Implicit Types line path : string.

(** The [delete_recursive] patterns are not anchored: they match wherever
    the call stands in the line. *)
Lemma search_delete path line :
  MBP_regex_search line
    (lit "delete_recursive" ⋅ Star sp ⋅ lit "(" ⋅ Star (none_of ")")
     ⋅ lit (String DQ (path +:+ String DQ ""))) = true
  ↔ delete_call path line.
Proof.
  rewrite MBP_regex_search_true. unfold delete_call, sp, none_of. split.
  - intros (x & t & st & -> & H).
    apply elem_of_run_lit in H as (t1 & -> & H).
    apply elem_of_run_star_cls in H as (ws & t2 & -> & Hws & H).
    apply elem_of_run_lit in H as (t3 & -> & H).
    apply elem_of_run_star_cls in H as (b & t4 & -> & Hb & H).
    apply elem_of_run_lit_end in H as (t5 & -> & _).
    exists x, ws, b, t5. split_and!; try done. by norm_app.
  - intros (x & ws & b & z & Hws & Hb & ->).
    exists x. eexists. exists ([], z). split; [reflexivity|].
    apply elem_of_run_lit. eexists. split; [reflexivity|].
    apply elem_of_run_star_cls. exists ws. eexists. split_and!; [done..|].
    apply elem_of_run_lit. eexists. split; [reflexivity|].
    apply elem_of_run_star_cls. exists b. eexists. split_and!; [done..|].
    apply elem_of_run_lit_end. exists z. split; [|done]. by norm_app.
Qed.

Lemma search_delete_rule rule line :
  rule ≠ FormatSh →
  MBP_regex_search line (rule_pattern rule) = true
  ↔ delete_call (rule_path rule) line.
Proof.
  intros Hrule. destruct rule; [| |done].
  - apply (search_delete "/system").
  - apply (search_delete "/cache").
Qed.

Lemma delete_call_contains path line :
  delete_call path line → contains line "delete_recursive" ∧ contains line path.
Proof.
  intros (x & ws & b & z & _ & _ & ->). split.
  - apply contains_app_r, contains_app_l, contains_self.
  - do 5 apply contains_app_r. exists (String DQ ""), (String DQ z).
    reflexivity.
Qed.

Lemma no_delete_call line :
  ¬ contains line "delete_recursive" →
  MBP_regex_search line delete_system_re = false
  ∧ MBP_regex_search line delete_cache_re = false.
Proof.
  intros Hno. split.
  - destruct (MBP_regex_search line delete_system_re) eqn:E; [|done].
    apply (search_delete "/system"), delete_call_contains in E as [? _]. done.
  - destruct (MBP_regex_search line delete_cache_re) eqn:E; [|done].
    apply (search_delete "/cache"), delete_call_contains in E as [? _]. done.
Qed.
End delete_shapes.

Lemma classified_result_lookup w lines device i line :
  lines !! i = Some line →
  classified_line w line = true →
  ∃ out, run_rewriter w lines device !! i = Some out
         ∧ classified_result w device line out.
Proof.
  intros Hline Hw. eexists. split; [by apply run_rewriter_lookup|].
  by apply pass_line_classified_result.
Qed.

(** X2: a line that calls [run_program] with a first quoted argument ending
    in [busybox] and the second argument [mount] (for the mount rewriter) or
    [umount] (for the unmount rewriter) is handled by that rewriter: replaced
    by the template for the first of System, Cache, Data it refers to, kept
    when it refers to none.  The format rewriter has no such form. *)
Theorem busybox_lines_rewritten w verb lines device i line :
  lines !! i = Some line →
  busybox_verb w = Some verb →
  busybox_call verb line →
  ∃ out, run_rewriter w lines device !! i = Some out
         ∧ classified_result w device line out.
Proof.
  intros Hline Hverb Hcall. apply classified_result_lookup; [done|].
  destruct w; simpl in Hverb; try discriminate; injection Hverb as <-;
    simpl; unfold isMountLine, isUnmountLine.
  - rewrite (proj2 (search_busybox_mount line) Hcall).
    by rewrite orb_true_r.
  - rewrite (proj2 (search_busybox_umount line) Hcall).
    by rewrite orb_true_r.
Qed.

Lemma busybox_lines_rewritten_witness :
  [sample_umount] !! 0 = Some sample_umount ∧
  busybox_verb UnmountRewriter = Some "umount" ∧
  busybox_call "umount" sample_umount ∧
  ∃ out, run_rewriter UnmountRewriter [sample_umount] unmapped_device !! 0
         = Some out
         ∧ classified_result UnmountRewriter unmapped_device sample_umount out.
Proof.
  assert (busybox_call "umount" sample_umount) as Hcall.
  { exists "", "", "", "/sbin/", "", " ", (cstr ", '/cache');").
    split_and!; reflexivity. }
  split_and!; [reflexivity|reflexivity|exact Hcall|].
  apply (busybox_lines_rewritten UnmountRewriter "umount" [sample_umount]
           unmapped_device 0 sample_umount eq_refl eq_refl Hcall).
Defined.

(** X3: a line that calls [run_program] with a first quoted argument,
    without comma, whose last path segment is [mount] is handled by the mount
    rewriter in the same way. *)
Theorem tool_mount_lines_rewritten lines device i line :
  lines !! i = Some line →
  tool_call "mount" line →
  ∃ out, replaceMountLines lines device !! i = Some out
         ∧ classified_result MountRewriter device line out.
Proof.
  intros Hline Hcall.
  apply (classified_result_lookup MountRewriter); [done|].
  simpl. unfold isMountLine.
  rewrite (proj2 (search_tool_mount line) Hcall). by rewrite !orb_true_r.
Qed.

Lemma tool_mount_lines_rewritten_witness :
  [sample_tool_mount] !! 0 = Some sample_tool_mount ∧
  tool_call "mount" sample_tool_mount ∧
  ∃ out, replaceMountLines [sample_tool_mount] unmapped_device !! 0 = Some out
         ∧ classified_result MountRewriter unmapped_device sample_tool_mount
             out.
Proof.
  assert (tool_call "mount" sample_tool_mount) as Hcall.
  { exists "", "", "", "/sbin", (cstr ", '/data');").
    split_and!; reflexivity. }
  split_and!; [reflexivity|exact Hcall|].
  apply (tool_mount_lines_rewritten [sample_tool_mount] unmapped_device 0
           sample_tool_mount eq_refl Hcall).
Defined.

(** X4: a line that calls [run_program] with a first quoted argument,
    without comma, whose last path segment is [format.sh] (any character in
    place of the dot) and that holds no [delete_recursive] is replaced by the
    format template for [/data], whatever partition it names and whatever the
    device maps. *)
Theorem format_sh_lines_formatted lines device i line :
  lines !! i = Some line →
  format_sh_call line →
  ¬ contains line "delete_recursive" →
  replaceFormatLines lines device !! i = Some (boost_format Format "/data").
Proof.
  intros Hline Hcall [Hsys Hcache]%no_delete_call.
  rewrite replaceFormatLines_map, (lookup_fmap_Some _ _ _ _ Hline). f_equal.
  apply (format_line_rule FormatSh); simpl.
  - by apply search_format_sh.
  - by rewrite Hsys, Hcache.
Qed.

Lemma format_sh_lines_formatted_witness :
  [sample_format_sh] !! 0 = Some sample_format_sh ∧
  format_sh_call sample_format_sh ∧
  ¬ contains sample_format_sh "delete_recursive" ∧
  replaceFormatLines [sample_format_sh] sbin_device !! 0
  = Some (boost_format Format "/data").
Proof.
  assert (format_sh_call sample_format_sh) as Hcall.
  { exists "."%char, "", "", "", "/tmp", ");". split_and!; reflexivity. }
  assert (¬ contains sample_format_sh "delete_recursive") as Hno.
  { intros H%find_contains. by apply H. }
  split_and!; [reflexivity|exact Hcall|exact Hno|].
  apply (format_sh_lines_formatted [sample_format_sh] sbin_device 0
           sample_format_sh eq_refl Hcall Hno).
Defined.

(** X5: a line in which [delete_recursive(] is followed, before any closing
    parenthesis, by [/system] in quotes is replaced as a whole by the format
    template for [/system], wherever the call stands in the line and whatever
    else the line holds; the same with [/cache], provided the line does not
    refer to System. *)
Theorem delete_lines_formatted rule lines device i line :
  lines !! i = Some line →
  rule ≠ FormatSh →
  delete_call (rule_path rule) line →
  rule = DeleteSystem ∨ ¬ refers_to device System line →
  replaceFormatLines lines device !! i
  = Some (boost_format Format (rule_path rule)).
Proof.
  intros Hline Hrule Hcall Hsys.
  rewrite replaceFormatLines_map, (lookup_fmap_Some _ _ _ _ Hline). f_equal.
  apply format_line_rule; [by apply search_delete_rule|].
  destruct rule; [done| |done]. destruct Hsys as [?|Hsys]; [done|]. simpl.
  apply orb_false_iff. split.
  - destruct (MBP_regex_search line delete_system_re) eqn:E; [|done].
    exfalso. apply Hsys. left. by apply delete_system_contains.
  - apply andb_false_iff. right.
    destruct (isSystem device line) eqn:E; [|done].
    by apply isSystem_refers in E.
Qed.

Lemma delete_lines_formatted_witness :
  [sample_delete_system] !! 0 = Some sample_delete_system ∧
  DeleteSystem ≠ FormatSh ∧
  delete_call (rule_path DeleteSystem) sample_delete_system ∧
  replaceFormatLines [sample_delete_system] unmapped_device !! 0
  = Some (boost_format Format "/system").
Proof.
  assert (delete_call (rule_path DeleteSystem) sample_delete_system) as Hcall.
  { exists (cstr "ui_print('wipe'); "), "", "", "); # done".
    split_and!; reflexivity. }
  split_and!; [reflexivity|discriminate|exact Hcall|].
  apply (delete_lines_formatted DeleteSystem [sample_delete_system]
           unmapped_device 0 sample_delete_system eq_refl
           ltac:(discriminate) Hcall (or_introl eq_refl)).
Defined.

Section changed_lines.
Implicit Types line path : string.

Lemma classify_Some_refers device line path :
  classify device line = Some path →
  refers_to device System line ∨ refers_to device Cache line
  ∨ refers_to_data device line.
Proof.
  rewrite <- isSystem_refers, <- isCache_refers, <- isData_refers.
  unfold classify.
  destruct (isSystem device line), (isCache device line),
    (isData device line); auto. discriminate.
Qed.

(** A line matched by a pattern of a rewriter has one of its shapes. *)
Lemma qualifies_recognised w line :
  qualifies (StatementPass w) line = true ↔ recognised w line.
Proof.
  unfold qualifies. destruct w; simpl.
  - rewrite orb_false_r, !orb_true_iff.
    change mount_re1
      with (Bol ⋅ Star sp ⋅ lit "mount" ⋅ Star sp ⋅ lit "(" ⋅ Star any ⋅ Eol)%re.
    rewrite (search_call_line "m" "ount") by done.
    rewrite search_busybox_mount, search_tool_mount. tauto.
  - rewrite orb_false_r, !orb_true_iff.
    change unmount_re1
      with (Bol ⋅ Star sp ⋅ lit "unmount" ⋅ Star sp ⋅ lit "(" ⋅ Star any ⋅ Eol)%re.
    rewrite (search_call_line "u" "nmount") by done.
    rewrite search_busybox_umount. tauto.
  - rewrite orb_false_r, !orb_true_iff.
    change format_re
      with (Bol ⋅ Star sp ⋅ lit "format" ⋅ Star sp ⋅ lit "(" ⋅ Star any ⋅ Eol)%re.
    rewrite (search_call_line "f" "ormat") by done.
    rewrite search_format_sh.
    rewrite (search_delete_rule DeleteSystem), (search_delete_rule DeleteCache)
      by done.
    simpl. tauto.
Qed.
End changed_lines.

(** X6: a statement rewriter changes a line only if the line has one of the
    shapes it recognises (for the mount rewriter: a call of [mount], a
    [busybox] call with [mount], a call of a [mount] program; and so on) and
    refers to System, Cache or Data, the one exception being the [format.sh]
    lines of the format rewriter. *)
Theorem changed_lines_recognised w lines device i line :
  lines !! i = Some line →
  run_rewriter w lines device !! i ≠ Some line →
  recognised w line
  ∧ (refers_to device System line ∨ refers_to device Cache line
     ∨ refers_to_data device line
     ∨ (w = FormatRewriter ∧ format_sh_call line)).
Proof.
  intros Hline Hchanged. rewrite (run_rewriter_lookup _ _ _ _ _ Hline) in Hchanged.
  assert (pass_line (StatementPass w) device line ≠ line) as Hne by congruence.
  clear Hchanged. split.
  - apply qualifies_recognised.
    destruct (qualifies (StatementPass w) line) eqn:E; [done|].
    by apply (pass_line_unqualified _ device) in E.
  - destruct w; simpl in Hne.
    + unfold mount_line in Hne. destruct (isMountLine line); [|done].
      destruct (classify device line) eqn:C; [|done].
      apply classify_Some_refers in C. tauto.
    + unfold unmount_line in Hne. destruct (isUnmountLine line); [|done].
      destruct (classify device line) eqn:C; [|done].
      apply classify_Some_refers in C. tauto.
    + unfold format_line in Hne.
      destruct (MBP_regex_search line format_re).
      { destruct (classify device line) eqn:C; [|done].
        apply classify_Some_refers in C. tauto. }
      destruct (MBP_regex_search line delete_system_re) eqn:E1.
      { left. left. by apply delete_system_contains. }
      destruct (MBP_regex_search line delete_cache_re) eqn:E2.
      { right. left. left. by apply delete_cache_contains. }
      destruct (MBP_regex_search line format_sh_re) eqn:E3; [|done].
      do 3 right. split; [done|]. by apply search_format_sh.
Qed.

Lemma changed_lines_recognised_witness :
  [sample_busybox_mount] !! 0 = Some sample_busybox_mount ∧
  run_rewriter MountRewriter [sample_busybox_mount] unmapped_device !! 0
  ≠ Some sample_busybox_mount ∧
  recognised MountRewriter sample_busybox_mount.
Proof.
  assert (run_rewriter MountRewriter [sample_busybox_mount] unmapped_device !! 0
          ≠ Some sample_busybox_mount) as Hchanged
    by (vm_compute; discriminate).
  split_and!; [reflexivity|exact Hchanged|].
  apply (changed_lines_recognised MountRewriter [sample_busybox_mount]
           unmapped_device 0 sample_busybox_mount eq_refl Hchanged).
Defined.

Section assertion_pass.
Implicit Types line args : string.
Implicit Types lines : list string.

(** The shape of the lines [reLine] matches. *)
Lemma reLine_shape line :
  MBP_regex_search line reLine = true ↔
  ∃ ws1 ws2 args,
    blank ws1 = true ∧ blank ws2 = true
    ∧ line = ws1 +:+ "assert" +:+ ws2 +:+ "(" +:+ args
    ∧ getprop_lookup device_property_pattern args.
Proof.
  rewrite reLine_qualifies. split.
  - intros (args & Hargs & Hlookup).
    destruct (call_args_shape _ _ _ Hargs) as (ws1 & ws2 & H1 & H2 & ->).
    by exists ws1, ws2, args.
  - intros (ws1 & ws2 & args & H1 & H2 & -> & Hlookup). exists args.
    split; [|done]. by apply (call_args_of_shape "a" "ssert").
Qed.

Lemma assert_line_shape ws1 ws2 args :
  blank ws1 = true → blank ws2 = true →
  getprop_lookup device_property_pattern args →
  assert_line (ws1 +:+ "assert" +:+ ws2 +:+ "(" +:+ args)
  = ws1 +:+ "assert" +:+ ws2 +:+ "(" +:+ true_disjunct +:+ args.
Proof.
  intros H1 H2 Hlookup.
  pose proof (call_args_of_shape "a" "ssert" ws1 ws2 args eq_refl H1 H2)
    as Hcall.
  change (String "a" "ssert") with "assert" in Hcall.
  rewrite (assert_line_qualified _ args Hcall Hlookup).
  assert (ws1 +:+ "assert" +:+ ws2 +:+ "(" +:+ args
          = (ws1 +:+ "assert" +:+ ws2 +:+ "(") +:+ args) as ->
    by (by rewrite !app_assoc_s).
  by rewrite consumed_app, !app_assoc_s.
Qed.

End assertion_pass.

(** X7: the test of [removeDeviceChecks] holds exactly for the lines that
    begin, after optional white space, with [assert(] and whose arguments
    hold [getprop(] followed somewhere by a property name; the dots of the
    two names in the pattern are not escaped, so [ro?product?device] and
    [ro?build?product] count with any character for [?].  For such a line
    the call of [MBP_regex_replace] computes the line with the disjunct after
    its opening parenthesis. *)
Theorem device_checks_recognised line :
  (MBP_regex_search line reLine = true ↔
   ∃ ws1 ws2 args,
     blank ws1 = true ∧ blank ws2 = true
     ∧ line = ws1 +:+ "assert" +:+ ws2 +:+ "(" +:+ args
     ∧ getprop_lookup device_property_pattern args)
  ∧ ∀ ws1 ws2 args,
      blank ws1 = true → blank ws2 = true →
      line = ws1 +:+ "assert" +:+ ws2 +:+ "(" +:+ args →
      getprop_lookup device_property_pattern args →
      MBP_regex_replace line reAssert assert_fmt
      = ws1 +:+ "assert" +:+ ws2 +:+ "(" +:+ true_disjunct +:+ args.
Proof.
  split; [apply reLine_shape|].
  intros ws1 ws2 args H1 H2 -> Hlookup.
  rewrite <- (assert_line_shape ws1 ws2 args H1 H2 Hlookup).
  unfold assert_line. rewrite (proj2 (reLine_shape _)); [done|].
  by exists ws1, ws2, args.
Qed.

Lemma device_checks_recognised_witness :
  MBP_regex_search sample_wildcard_assert reLine = true
  ∧ MBP_regex_replace sample_wildcard_assert reAssert assert_fmt
    = "assert(" +:+ true_disjunct
      +:+ cstr "getprop('ro_product_device') == 'jflte');".
Proof.
  assert (getprop_lookup device_property_pattern
            (cstr "getprop('ro_product_device') == 'jflte');")) as Hlookup.
  { exists "", "", (String DQ ""), "ro_product_device",
      (cstr "') == 'jflte');").
    split_and!; try reflexivity. exists "_"%char, "_"%char. by left. }
  destruct (device_checks_recognised sample_wildcard_assert)
    as [Htest Hvalue].
  split.
  - apply Htest.
    exists "", "", (cstr "getprop('ro_product_device') == 'jflte');").
    split_and!; [reflexivity|reflexivity|reflexivity|exact Hlookup].
  - exact (Hvalue "" "" (cstr "getprop('ro_product_device') == 'jflte');")
             eq_refl eq_refl eq_refl Hlookup).
Defined.

(** X8: [removeDeviceChecks] loses nothing: two scripts that differ are
    still different after it. *)
Theorem removeDeviceChecks_injective lines1 lines2 :
  lines1 ≠ lines2 → removeDeviceChecks lines1 ≠ removeDeviceChecks lines2.
Proof.
  intros Hne Heq. apply Hne. by rewrite !removeDeviceChecks_unchanged in Heq.
Qed.

Lemma removeDeviceChecks_injective_witness :
  [sample_assert] ≠ [sample_wildcard_assert] ∧
  removeDeviceChecks [sample_assert]
  ≠ removeDeviceChecks [sample_wildcard_assert].
Proof.
  assert ([sample_assert] ≠ [sample_wildcard_assert]) as Hne
    by (vm_compute; discriminate).
  split; [exact Hne|].
  apply (removeDeviceChecks_injective [sample_assert] [sample_wildcard_assert]
           Hne).
Defined.

(** ** Mount lines and unmount lines *)

Section mount_unmount.
Implicit Types line q t verb tool : string.
Implicit Types lines : list string.

Lemma free_of_app cs q t : free_of cs (q +:+ t) = free_of cs q && free_of cs t.
Proof. apply all_chars_app. Qed.

Lemma free_of_comma q :
  free_of (String DQ ",") q = true → free_of (String DQ "") q = true.
Proof.
  unfold free_of. induction q as [|a q IH]; [done|]. cbn [all_chars].
  intros [Ha Hq]%andb_true_iff. rewrite (IH Hq), andb_true_r.
  revert Ha. simpl. by repeat case_decide.
Qed.

Lemma until_quote_free q t :
  free_of (String DQ "") q = true → until_quote (q +:+ String DQ t) = Some (q, t).
Proof.
  unfold free_of. induction q as [|a q IH].
  - intros _. reflexivity.
  - cbn [all_chars]. intros [Ha Hq]%andb_true_iff. rewrite app_cons_s.
    cbn [until_quote]. rewrite (IH Hq). simpl in Ha.
    destruct (decide (a = DQ)) as [->|E]; [|done].
    exfalso. revert Ha. by destruct (decide (DQ = DQ)).
Qed.

Lemma last_char_app q a t :
  last_char (q +:+ String a t) = last_char (String a t).
Proof.
  induction q as [|b q IH]; [done|]. rewrite app_cons_s.
  change (last_char (String b ?s))
    with (match s with "" => Some b | String _ _ => last_char s end).
  destruct (q +:+ String a t) eqn:E; [|done].
  by destruct q.
Qed.

Lemma first_arg_shape ws1 ws2 ws3 q t :
  blank ws1 = true → blank ws2 = true → blank ws3 = true →
  free_of (String DQ "") q = true →
  first_arg (ws1 +:+ "run_program" +:+ ws2 +:+ "(" +:+ ws3
             +:+ String DQ (q +:+ String DQ t))
  = Some (q, t).
Proof.
  intros H1 H2 H3 Hq. unfold first_arg.
  rewrite (call_args_of_shape "r" "un_program") by done. simpl.
  rewrite lstrip_app_blank by done. simpl. by apply until_quote_free.
Qed.

Lemma busybox_first_arg verb line :
  busybox_call verb line →
  ∃ q ws4 ws5 rest,
    blank ws4 = true ∧ blank ws5 = true
    ∧ first_arg line
      = Some (q +:+ "busybox",
              ws4 +:+ "," +:+ ws5 +:+ String DQ (verb +:+ String DQ rest)).
Proof.
  intros (ws1 & ws2 & ws3 & q & ws4 & ws5 & rest
          & H1 & H2 & H3 & H4 & H5 & Hq & ->).
  exists q, ws4, ws5, rest. split_and!; [done..|].
  rewrite <- (app_assoc_s q "busybox"). apply first_arg_shape; try done.
  by rewrite free_of_app, Hq.
Qed.

Lemma tool_first_arg tool line :
  free_of (String DQ "") tool = true →
  tool_call tool line →
  ∃ q rest, first_arg line = Some (q +:+ "/" +:+ tool, rest).
Proof.
  intros Htool (ws1 & ws2 & ws3 & q & rest & H1 & H2 & H3 & Hq & ->).
  exists q, rest.
  assert (q +:+ "/" +:+ tool +:+ String DQ rest
          = (q +:+ "/" +:+ tool) +:+ String DQ rest) as ->
    by (by rewrite !app_assoc_s).
  apply first_arg_shape; try done.
  by rewrite !free_of_app, (free_of_comma q Hq), Htool.
Qed.

Lemma run_program_call verb tool line :
  busybox_call verb line ∨ tool_call tool line →
  begins_with_call "run_program" line.
Proof.
  intros [(ws1 & ws2 & ws3 & q & ws4 & ws5 & rest & H1 & H2 & _ & _ & _ & _ & ->)
         |(ws1 & ws2 & ws3 & q & rest & H1 & H2 & _ & _ & ->)];
    exists ws1, ws2; eauto.
Qed.

(** A line begins with one call only. *)
Lemma begins_with_one_call a w b v line :
  Ascii.is_space a = false → Ascii.is_space b = false → a ≠ b →
  begins_with_call (String a w) line → begins_with_call (String b v) line →
  False.
Proof.
  intros Ha Hb Hab [? H1]%begins_with_call_args [? H2]%begins_with_call_args;
    try done.
  apply call_args_starts in H1, H2.
  destruct (lstrip line) as [|c0 t0]; [done|]. simpl in H1, H2.
  repeat case_decide; congruence.
Qed.

Lemma busybox_one_verb line :
  busybox_call "mount" line → busybox_call "umount" line → False.
Proof.
  intros (q & ws4 & ws5 & rest & H4 & H5 & Hm)%busybox_first_arg
         (q' & ws4' & ws5' & rest' & H4' & H5' & Hu)%busybox_first_arg.
  rewrite Hm in Hu. injection Hu as _ Hu.
  apply (f_equal lstrip) in Hu.
  rewrite (lstrip_app_blank ws4), (lstrip_app_blank ws4') in Hu by done.
  rewrite !app_cons_s, !app_nil_l_s in Hu. simpl in Hu.
  injection Hu as Hu. apply (f_equal lstrip) in Hu.
  rewrite (lstrip_app_blank ws5), (lstrip_app_blank ws5') in Hu by done.
  by simpl in Hu.
Qed.

Lemma tool_not_busybox tool verb line :
  free_of (String DQ "") tool = true →
  last_char tool ≠ Some "x"%char → tool ≠ "" →
  tool_call tool line → busybox_call verb line → False.
Proof.
  intros Htool Hlast Hne (q & rest & Ht)%tool_first_arg
         (q' & ws4 & ws5 & rest' & _ & _ & Hb)%busybox_first_arg; [|done].
  rewrite Ht in Hb. injection Hb as Hb _.
  apply (f_equal last_char) in Hb.
  rewrite <- app_assoc_s in Hb. destruct tool as [|a tool]; [done|].
  change "busybox" with (String "b" "usybox") in Hb.
  rewrite !last_char_app in Hb. simpl in Hb. by destruct tool.
Qed.

(** No line is both a mount line and an unmount line. *)
Lemma mount_not_unmount line :
  recognised MountRewriter line → recognised UnmountRewriter line → False.
Proof.
  intros [Hm|[Hm|Hm]] [Hu|Hu].
  - by apply (begins_with_one_call "m" "ount" "u" "nmount" line).
  - apply (begins_with_one_call "m" "ount" "r" "un_program" line); try done.
    by apply (run_program_call "umount" ""); left.
  - apply (begins_with_one_call "r" "un_program" "u" "nmount" line); try done.
    by apply (run_program_call "mount" ""); left.
  - by apply (busybox_one_verb line).
  - apply (begins_with_one_call "r" "un_program" "u" "nmount" line); try done.
    by apply (run_program_call "" "mount"); right.
  - by apply (tool_not_busybox "mount" "umount" line).
Qed.

Lemma mount_unmount_exclusive line :
  isMountLine line && isUnmountLine line = false.
Proof.
  destruct (isMountLine line) eqn:Em, (isUnmountLine line) eqn:Eu; try done.
  exfalso. apply (mount_not_unmount line); apply qualifies_recognised;
    unfold qualifies; simpl; rewrite orb_false_r.
  - by rewrite orb_assoc.
  - done.
Qed.

Lemma mount_unmount_line_commute device line :
  unmount_line device (mount_line device line)
  = mount_line device (unmount_line device line).
Proof.
  pose proof (emitted_fixed MountRewriter device) as FM.
  pose proof (emitted_fixed UnmountRewriter device) as FU.
  simpl in FM, FU.
  pose proof (mount_unmount_exclusive line) as Hex.
  destruct (isMountLine line) eqn:Em.
  - simpl in Hex.
    assert (unmount_line device line = line) as ->
      by (unfold unmount_line; by rewrite Hex).
    destruct (statement_line_cases MountRewriter device line) as [EM|EM];
      simpl in EM; [rewrite EM; unfold unmount_line; by rewrite Hex|].
    by rewrite (FU _ EM).
  - assert (mount_line device line = line) as EM
      by (unfold mount_line; by rewrite Em).
    rewrite EM.
    destruct (statement_line_cases UnmountRewriter device line) as [EU|EU];
      simpl in EU; [by rewrite EU, EM|].
    by rewrite (FM _ EU).
Qed.
End mount_unmount.

(** X9: no line is both a mount line and an unmount line, so the mount pass
    and the unmount pass can be run in either order with the same result. *)
Theorem mount_unmount_passes_commute lines device :
  (∀ line, isMountLine line && isUnmountLine line = false)
  ∧ replaceUnmountLines (replaceMountLines lines device) device
    = replaceMountLines (replaceUnmountLines lines device) device.
Proof.
  split; [apply mount_unmount_exclusive|].
  rewrite !replaceMountLines_map, !replaceUnmountLines_map.
  rewrite <- !list_fmap_compose. apply list_fmap_ext.
  intros i line _. apply mount_unmount_line_commute.
Qed.

Section umount_program.
Implicit Types line x y u v : string.

Lemma app_inj_length x y u v :
  x +:+ u = y +:+ v → String.length u = String.length v → x = y ∧ u = v.
Proof.
  revert y. induction x as [|a x IH]; intros [|b y] H Hlen.
  - by rewrite !app_nil_l_s in H.
  - apply (f_equal String.length) in H.
    rewrite app_nil_l_s, app_cons_s in H. simpl in H.
    rewrite length_app_s in H. lia.
  - apply (f_equal String.length) in H.
    rewrite app_nil_l_s, app_cons_s in H. simpl in H.
    rewrite length_app_s in H. lia.
  - rewrite !app_cons_s in H. injection H as -> H.
    destruct (IH y H Hlen) as [-> ->]. done.
Qed.

Lemma tool_umount_not_mount line :
  tool_call "umount" line → tool_call "mount" line → False.
Proof.
  intros (q & rest & Hu)%tool_first_arg (q' & rest' & Hm)%tool_first_arg;
    try done.
  rewrite Hu in Hm. injection Hm as Hm _.
  change (q' +:+ "/" +:+ "mount") with (q' +:+ "/mount") in Hm.
  rewrite <- app_assoc_s in Hm.
  by destruct (app_inj_length _ _ _ _ Hm eq_refl) as [_ ?].
Qed.

Lemma tool_umount_unrecognised line :
  tool_call "umount" line →
  ¬ recognised MountRewriter line ∧ ¬ recognised UnmountRewriter line.
Proof.
  intros Hcall.
  assert (begins_with_call "run_program" line) as Hrun
    by (by apply (run_program_call "" "umount"); right).
  split.
  - intros [H|[H|H]].
    + by apply (begins_with_one_call "m" "ount" "r" "un_program" line).
    + by apply (tool_not_busybox "umount" "mount" line).
    + by apply (tool_umount_not_mount line).
  - intros [H|H].
    + by apply (begins_with_one_call "r" "un_program" "u" "nmount" line).
    + by apply (tool_not_busybox "umount" "umount" line).
Qed.
End umount_program.

(** X10: a line that calls an [umount] program through [run_program], such
    as [run_program('/sbin/umount', '/system');], is left as it is by the
    unmount pass, which only knows the [unmount(] and [busybox] forms, and by
    the mount pass; the mount pass has a pattern for the corresponding call
    of a [mount] program, the unmount pass has none. *)
Theorem umount_program_untouched lines device i line :
  lines !! i = Some line →
  tool_call "umount" line →
  replaceUnmountLines lines device !! i = Some line
  ∧ replaceMountLines lines device !! i = Some line.
Proof.
  intros Hline [HM HU]%tool_umount_unrecognised.
  rewrite replaceUnmountLines_map, replaceMountLines_map.
  rewrite !(lookup_fmap_Some _ _ _ _ Hline).
  split; f_equal.
  - apply (pass_line_unqualified (StatementPass UnmountRewriter)).
    destruct (qualifies _ line) eqn:E; [|done].
    by apply qualifies_recognised in E.
  - apply (pass_line_unqualified (StatementPass MountRewriter)).
    destruct (qualifies _ line) eqn:E; [|done].
    by apply qualifies_recognised in E.
Qed.

Lemma umount_program_untouched_witness :
  [sample_tool_umount] !! 0 = Some sample_tool_umount ∧
  tool_call "umount" sample_tool_umount ∧
  replaceUnmountLines [sample_tool_umount] unmapped_device !! 0
  = Some sample_tool_umount.
Proof.
  assert (tool_call "umount" sample_tool_umount) as Hcall.
  { exists "", "", "", "/sbin", (cstr ", '/system');").
    split_and!; reflexivity. }
  split_and!; [reflexivity|exact Hcall|].
  apply (umount_program_untouched [sample_tool_umount] unmapped_device 0
           sample_tool_umount eq_refl Hcall).
Defined.

(** ** The whole rewrite *)

Section whole_rewrite.
Implicit Types line contents : string.
Implicit Types lines : list string.


Lemma rewrite_statements_one_line lines device :
  Forall (λ line, one_line line = true) lines →
  Forall (λ line, one_line line = true) (rewrite_statements lines device).
Proof.
  intros H. unfold rewrite_statements.
  apply (run_pass_one_line (StatementPass FormatRewriter)).
  apply (run_pass_one_line (StatementPass UnmountRewriter)).
  by apply (run_pass_one_line (StatementPass MountRewriter)).
Qed.

Lemma rewritten_one_line this lines device :
  Forall (λ line, one_line line = true) lines →
  Forall (λ line, one_line line = true)
    (removeDeviceChecks_if_requested this (rewrite_statements lines device)).
Proof.
  intros H%(rewrite_statements_one_line _ device).
  unfold removeDeviceChecks_if_requested. destruct (negb _); [|done].
  by apply (run_pass_one_line AssertionPass device).
Qed.

Lemma rewritten_not_nil this lines device :
  lines ≠ [] →
  removeDeviceChecks_if_requested this (rewrite_statements lines device) ≠ [].
Proof.
  intros Hne Hnil. apply Hne. apply (f_equal length) in Hnil.
  unfold removeDeviceChecks_if_requested, rewrite_statements in Hnil.
  rewrite removeDeviceChecks_unchanged, replaceFormatLines_map,
    replaceUnmountLines_map, replaceMountLines_map in Hnil.
  destruct (negb _); rewrite ?length_fmap in Hnil; by destruct lines.
Qed.

(** Splitting the text [patchFiles] returns gives the rewritten lines. *)
Lemma split_patchFiles this contents :
  split (is_any_of (String LF "")) (patchFiles this contents).2
  = removeDeviceChecks_if_requested this
      (rewrite_statements (split (is_any_of (String LF "")) contents)
         (device (info (m_impl this)))).
Proof.
  rewrite patchFiles_unfold. cbn [snd]. apply split_join.
  - apply rewritten_not_nil, split_not_nil.
  - apply rewritten_one_line, split_one_line.
Qed.
End whole_rewrite.



(** X12: the text [patchFiles] returns holds exactly the rewritten lines:
    split at line feeds it gives, line for line, what the passes made of the
    lines of the input, and none of these lines holds a line feed. *)
Theorem patchFiles_lines this contents :
  let lines :=
    removeDeviceChecks_if_requested this
      (rewrite_statements (split (is_any_of (String LF "")) contents)
         (device (info (m_impl this)))) in
  split (is_any_of (String LF "")) (patchFiles this contents).2 = lines
  ∧ Forall (λ line, one_line line = true) lines
  ∧ lines ≠ [].
Proof.
  intros lines. split_and!.
  - apply split_patchFiles.
  - apply rewritten_one_line, split_one_line.
  - apply rewritten_not_nil, split_not_nil.
Qed.

(** X13: patching is idempotent on the text: patching the text that
    [patchFiles] returned gives that text again, whether or not the removal
    of device checks is requested. *)
Theorem patchFiles_idempotent this contents :
  patchFiles this (patchFiles this contents).2 = patchFiles this contents.
Proof.
  rewrite (patchFiles_unfold this (_.2)), split_patchFiles.
  rewrite (patchFiles_unfold this contents). f_equal.
  assert (∀ lines, removeDeviceChecks_if_requested this lines = lines)
    as Hsame.
  { intros lines. unfold removeDeviceChecks_if_requested.
    destruct (negb _); [apply removeDeviceChecks_unchanged|done]. }
  rewrite !Hsame.
  f_equal. rewrite !rewrite_statements_map, <- list_fmap_compose.
  apply list_fmap_ext. intros i line _. apply statements_line_idempotent.
Qed.

(** X14: what the mount pass writes in place of a line is final: the unmount
    pass, the format pass and the removal of device checks leave it as it
    is, so it is the line of the result at that position. *)
Theorem mount_rewrite_is_final this lines device i line out :
  lines !! i = Some line →
  replaceMountLines lines device !! i = Some out →
  out ≠ line →
  removeDeviceChecks_if_requested this (rewrite_statements lines device) !! i
  = Some out.
Proof.
  intros Hline Hout Hne.
  rewrite replaceMountLines_map, (lookup_fmap_Some _ _ _ _ Hline) in Hout.
  injection Hout as <-.
  destruct (statement_line_cases MountRewriter device line) as [E|Hin];
    [done|]. simpl in Hin.
  pose proof (emitted_fixed UnmountRewriter device _ Hin) as FU.
  pose proof (emitted_fixed FormatRewriter device _ Hin) as FF.
  simpl in FU, FF.
  assert (rewrite_statements lines device !! i = Some (mount_line device line))
    as Hst.
  { rewrite rewrite_statements_map, (lookup_fmap_Some _ _ _ _ Hline).
    by rewrite FU, FF. }
  unfold removeDeviceChecks_if_requested. destruct (negb _); [|done].
  by rewrite removeDeviceChecks_unchanged.
Qed.

Lemma mount_rewrite_is_final_witness :
  [sample_mount] !! 0 = Some sample_mount ∧
  replaceMountLines [sample_mount] unmapped_device !! 0
  = Some (boost_format Mount "/system") ∧
  boost_format Mount "/system" ≠ sample_mount ∧
  removeDeviceChecks_if_requested (sample_patcher unmapped_device false)
    (rewrite_statements [sample_mount] unmapped_device) !! 0
  = Some (boost_format Mount "/system").
Proof.
  assert (boost_format Mount "/system" ≠ sample_mount) as Hne
    by (vm_compute; discriminate).
  split_and!; [reflexivity|reflexivity|exact Hne|].
  apply (mount_rewrite_is_final (sample_patcher unmapped_device false)
           [sample_mount] unmapped_device 0 sample_mount
           (boost_format Mount "/system") eq_refl eq_refl Hne).
Defined.

(** X15: each statement rewriter is idempotent by itself: run a second time
    over its own result, with the same device, it changes nothing. *)
Theorem statement_pass_idempotent w lines device :
  run_rewriter w (run_rewriter w lines device) device
  = run_rewriter w lines device.
Proof.
  change (run_rewriter w) with (run_pass (StatementPass w)).
  rewrite !run_pass_map, <- list_fmap_compose. apply list_fmap_ext.
  intros i line _. unfold compose.
  destruct (statement_line_cases w device line) as [E | Hin];
    [by rewrite !E|].
  by apply emitted_fixed.
Qed.
